(** * The task API client and the list screen's toggle handler

    A shallow embedding of [src/services/api.ts] (the object [api]:
    [handleResponse], [register], [login], [getTodos], [createTodo],
    [updateTodo], [deleteTodo]) and of [handleToggle] in
    [app/home/todo-list/index.tsx], followed by the properties the
    specification states about them. *)

From Stdlib Require Import String Ascii List NArith ZArith Bool Lia.
From Stdlib Require Import DecimalString.
Import ListNotations.
Local Open Scope string_scope.
Set Warnings "-register-all".

(* ================================================================= *)
(** ** Strings *)

(** A JavaScript string is represented by the bytes of its UTF-8
    encoding, so a literal of the source and a literal here are the same
    text. *)

(** [s.includes(needle)] *)
Fixpoint includes (s needle : string) : bool :=
  prefix needle s ||
  match s with
  | EmptyString => false
  | String _ r => includes r needle
  end.

(** The characters [String.prototype.trim] removes: ECMAScript's WhiteSpace
    and LineTerminator productions.  One byte: TAB, LF, VT, FF, CR, SP. *)
Definition ws1 (a : N) : bool :=
  ((9 <=? a) && (a <=? 13) || (a =? 32))%N.

(** Two bytes: U+00A0 (C2 A0). *)
Definition ws2 (a b : N) : bool :=
  ((a =? 194) && (b =? 160))%N.

(** Three bytes: U+1680 (E1 9A 80), U+2000..U+200A (E2 80 80..8A),
    U+2028, U+2029, U+202F (E2 80 A8, A9, AF), U+205F (E2 81 9F),
    U+3000 (E3 80 80) and U+FEFF (EF BB BF). *)
Definition ws3 (a b c : N) : bool :=
  ((a =? 225) && (b =? 154) && (c =? 128)
   || (a =? 226) && (b =? 128)
      && ((128 <=? c) && (c <=? 138) || (c =? 168) || (c =? 169) || (c =? 175))
   || (a =? 226) && (b =? 129) && (c =? 159)
   || (a =? 227) && (b =? 128) && (c =? 128)
   || (a =? 239) && (b =? 187) && (c =? 191))%N.

(** [s.trimStart()] *)
Fixpoint trimStart (s : string) : string :=
  match s with
  | EmptyString => EmptyString
  | String a r =>
      if ws1 (N_of_ascii a) then trimStart r
      else match r with
           | EmptyString => s
           | String b r2 =>
               if ws2 (N_of_ascii a) (N_of_ascii b) then trimStart r2
               else match r2 with
                    | EmptyString => s
                    | String c r3 =>
                        if ws3 (N_of_ascii a) (N_of_ascii b) (N_of_ascii c)
                        then trimStart r3
                        else s
                    end
           end
  end.

(** [s.trimEnd()]: the text is kept up to the point from which only
    white space follows. *)
Fixpoint trimEnd (s : string) : string :=
  match s with
  | EmptyString => EmptyString
  | String a r =>
      match trimStart s with
      | EmptyString => EmptyString
      | _ => String a (trimEnd r)
      end
  end.

(** [s.trim()] *)
Definition trim (s : string) : string := trimEnd (trimStart s).

(** The white-space characters, as UTF-8 texts. *)
Definition bytes (l : list N) : string :=
  fold_right (fun n s => String (ascii_of_N n) s) EmptyString l.

Definition whitespace_chars : list string :=
  map bytes
    [ [9]; [10]; [11]; [12]; [13]; [32]; [194; 160]; [225; 154; 128];
      [226; 128; 128]; [226; 128; 129]; [226; 128; 130]; [226; 128; 131];
      [226; 128; 132]; [226; 128; 133]; [226; 128; 134]; [226; 128; 135];
      [226; 128; 136]; [226; 128; 137]; [226; 128; 138]; [226; 128; 168];
      [226; 128; 169]; [226; 128; 175]; [226; 129; 159]; [227; 128; 128];
      [239; 187; 191] ]%N.

(** A title that is empty or made of white space only. *)
Inductive blank : string -> Prop :=
| blank_empty : blank EmptyString
| blank_ws w s : In w whitespace_chars -> blank s -> blank (w ++ s).

(** Decimal text of a non-negative integer, as a template literal prints
    an integral number. *)
Definition show_N (n : N) : string := NilZero.string_of_uint (N.to_uint n).

(** [s.replace(/\/$/, "")]: one trailing slash is removed. *)
Fixpoint strip_trailing_slash (s : string) : string :=
  match s with
  | EmptyString => EmptyString
  | String a r =>
      match r with
      | EmptyString => if Ascii.eqb a "/" then EmptyString else s
      | _ => String a (strip_trailing_slash r)
      end
  end.

(* ================================================================= *)
(** ** JavaScript values *)

Section Values.

(** The runtime's numbers (IEEE doubles); the code copies, prints and
    tests them but never computes with them. *)
Variable number : Type.

Inductive value : Type :=
| VUndefined
| VNull
| VBool (b : bool)
| VNum (n : number)
| VStr (s : string)
| VArr (items : list value)
| VObj (props : list (string * value)).

(** Own properties of an object literal or of a parsed JSON object, in
    insertion order. *)
Definition object := list (string * value).

Fixpoint lookup (k : string) (o : object) : option value :=
  match o with
  | [] => None
  | (k', v) :: o' => if String.eqb k k' then Some v else lookup k o'
  end.

(** [o.k = v] *)
Fixpoint set (k : string) (v : value) (o : object) : object :=
  match o with
  | [] => [(k, v)]
  | (k', v') :: o' =>
      if String.eqb k k' then (k, v) :: o' else (k', v') :: set k v o'
  end.

Definition keys (o : object) : list string := map fst o.

(** [typeof v] *)
Definition typeof (v : value) : string :=
  match v with
  | VUndefined => "undefined"
  | VNull => "object"
  | VBool _ => "boolean"
  | VNum _ => "number"
  | VStr _ => "string"
  | VArr _ => "object"
  | VObj _ => "object"
  end.

(** [Array.isArray(v)] *)
Definition isArray (v : value) : bool :=
  match v with
  | VArr _ => true
  | _ => false
  end.

End Values.

Arguments VUndefined {number}.
Arguments VNull {number}.
Arguments VBool {number} b.
Arguments VNum {number} n.
Arguments VStr {number} s.
Arguments VArr {number} items.
Arguments VObj {number} props.
Arguments lookup {number} k o.
Arguments set {number} k v o.
Arguments keys {number} o.
Arguments typeof {number} v.
Arguments isArray {number} v.

(* ================================================================= *)
(** ** Errors and completions *)

(** The error objects the code throws or receives.  [Error] is built by
    [new Error(message)]; the other two come from the runtime. *)
Inductive JsError : Type :=
| Error (message : string)
| TypeError (message : string)
| SyntaxError (message : string).

(** [error.message] *)
Definition message (e : JsError) : string :=
  match e with
  | Error m => m
  | TypeError m => m
  | SyntaxError m => m
  end.

(** How an evaluation ends: with a value, or by throwing (for an [async]
    function: the promise is fulfilled, or rejected). *)
Inductive completion (A : Type) : Type :=
| Return (a : A)
| Throw (e : JsError).

Arguments Return {A} a.
Arguments Throw {A} e.

(** Sequencing of evaluations that may throw. *)
Definition bind {A B : Type} (c : completion A) (k : A -> completion B)
  : completion B :=
  match c with
  | Return a => k a
  | Throw e => Throw e
  end.

Notation "x <- c ;; k" := (bind c (fun x => k))
  (at level 61, c at next level, right associativity).

(* ================================================================= *)
(** ** The runtime *)

(** What the code takes from the JavaScript runtime: its numbers, the
    [JSON] object and the texts of the errors the runtime raises itself. *)
Class Runtime : Type := {
  number : Type;
  (** [false] for zero and NaN *)
  Number_truthy : number -> bool;
  (** [String(n)] *)
  Number_toString : number -> string;
  (** [JSON.parse(text)]; [None] when it throws a SyntaxError *)
  JSON_parse : string -> option (value number);
  (** [JSON.stringify(v)] for an object or an array [v] *)
  JSON_stringify : value number -> string;
  (** message of the TypeError raised by reading property [k] of [null]
      or [undefined] *)
  read_error : value number -> string -> string;
  (** message of the SyntaxError raised for a text that is not JSON *)
  parse_error : string -> string;

  JSON_parse_empty : JSON_parse EmptyString = None;
  Number_toString_nonempty : forall n, Number_toString n <> EmptyString;
  JSON_stringify_nonempty :
    forall v, typeof v = "object" -> v <> VNull ->
              JSON_stringify v <> EmptyString
}.

Definition jsval `{Runtime} : Type := value number.

Section Semantics.

Context `{RT : Runtime}.

(** [if (v)], [!v], [v || w]: the truth value of [v] *)
Definition truthy (v : jsval) : bool :=
  match v with
  | VUndefined => false
  | VNull => false
  | VBool b => b
  | VNum n => Number_truthy n
  | VStr s => negb (String.eqb s EmptyString)
  | VArr _ => true
  | VObj _ => true
  end.

(** [a || b] on values; [b] is evaluated only when [a] is falsy. *)
Definition or_else (a : jsval) (b : completion jsval) : completion jsval :=
  if truthy a then Return a else b.

(** [a || b] on strings *)
Definition or_text (a b : string) : string :=
  match a with
  | EmptyString => b
  | _ => a
  end.

(** [String(v)] *)
Fixpoint String_ (v : jsval) : string :=
  match v with
  | VUndefined => "undefined"
  | VNull => "null"
  | VBool true => "true"
  | VBool false => "false"
  | VNum n => Number_toString n
  | VStr s => s
  | VArr items =>
      (fix join (l : list jsval) : string :=
         match l with
         | [] => EmptyString
         | x :: l' =>
             (match x with
              | VUndefined => EmptyString
              | VNull => EmptyString
              | _ => String_ x
              end)
             ++ match l' with
                | [] => EmptyString
                | _ => "," ++ join l'
                end
         end) items
  | VObj _ => "[object Object]"
  end.

(** [o.k] on an object: the own property, or [undefined]. *)
Definition prop (o : object number) (k : string) : jsval :=
  match lookup k o with
  | Some x => x
  | None => VUndefined
  end.

(** [v.k] for the property names the code reads ([message], [error],
    [data], [token], [latitude], [longitude]): none of them is defined
    on a built-in prototype, so only an object's own property can answer.
    Reading from [null] or [undefined] throws. *)
Definition get (v : jsval) (k : string) : completion jsval :=
  match v with
  | VUndefined => Throw (TypeError (read_error v k))
  | VNull => Throw (TypeError (read_error v k))
  | VObj o => Return (prop o k)
  | _ => Return VUndefined
  end.

(* ================================================================= *)
(** ** HTTP responses *)

(** A completed response: the status line and the body text. *)
Record Response : Type := mkResponse {
  status : N;
  statusText : string;
  body : string
}.

(** [res.ok]: the status is in the range 200-299. *)
Definition ok (res : Response) : bool :=
  ((200 <=? status res) && (status res <=? 299))%N.

(** [await res.text()] *)
Definition text (res : Response) : string := body res.

(** [res.json()] *)
Definition json (res : Response) : completion jsval :=
  match JSON_parse (body res) with
  | Some v => Return v
  | None => Throw (SyntaxError (parse_error (body res)))
  end.

(* ================================================================= *)
(** ** api.handleResponse *)

(** The [try] block of [handleResponse]; its result is the new value of
    [errorText]. *)
Definition handleResponse_try (errorText : string) : completion string :=
  jsonError <- match JSON_parse errorText with
               | Some v => Return v
               | None => Throw (SyntaxError (parse_error errorText))
               end ;;
  m <- get jsonError "message" ;;
  rawError <- or_else m (get jsonError "error") ;;
  if truthy rawError then
    if String.eqb (typeof rawError) "object"
    then Return (JSON_stringify rawError)
    else Return (String_ rawError)
  else Return errorText.

(** The text [handleResponse] throws for a response that is not ok. *)
Definition errorText_of (res : Response) : string :=
  let errorText := text res in
  match handleResponse_try errorText with
  | Return t => t
  | Throw _ =>
      if includes errorText "<!DOCTYPE html>"
      then "Error del servidor (" ++ show_N (status res) ++ ")"
      else errorText
  end.

Definition handleResponse (res : Response) : completion jsval :=
  if negb (ok res) then
    Throw (Error (or_text (errorText_of res)
                    ("Error " ++ show_N (status res) ++ ": " ++ statusText res)))
  else if (status res =? 204)%N then Return VNull
  else json res.

(* ================================================================= *)
(** ** Data model *)

(** Modelled from the spec: the location of the types [Task] and
    [NewTaskData] of [src/types/todolist], which the sources import but
    which is not among them: latitude and longitude as numbers and an
    optional capture timestamp, as the screens build it. *)
Record Location : Type := mkLocation {
  latitude : number;
  longitude : number;
  timestamp : option number
}.

(** Modelled from the spec: the type [NewTaskData] of
    [src/types/todolist], the input of the create operation: a title,
    an optional photo reference and an optional location.  An absent
    field is [None]; the title is optional here because [createTodo]
    itself reads it with [?.]. *)
Record NewTaskData : Type := mkNewTaskData {
  nt_title : option string;
  nt_photoUri : option string;
  nt_location : option Location
}.

(** Modelled from the spec: the type [Task] of [src/types/todolist]:
    identifier, title, completed flag, optional image reference and an
    optional location that the server sends as a JSON-encoded string or
    as an object. *)
Record Task : Type := mkTask {
  task_id : string;
  task_title : string;
  task_completed : bool;
  task_image : option string;
  task_location : jsval
}.

(** The object form of [updateTodo]'s parameter [data]:
    [{ completed?: boolean; title?: string; image?: string | null;
       location?: any }].  An absent field is [None]; [image: null] is
    [Some None]; an absent [location] is [VUndefined]. *)
Record Changes : Type := mkChanges {
  ch_completed : option bool;
  ch_title : option string;
  ch_image : option (option string);
  ch_location : jsval
}.

(** [updateTodo]'s parameter [data]: the object form, or the legacy
    boolean. *)
Inductive UpdateData : Type :=
| Legacy (completed : bool)
| Partial (changes : Changes).

(* ================================================================= *)
(** ** Effects *)

(** The argument of [fetch]: the URL and the init object. *)
Record Request : Type := mkRequest {
  req_url : string;
  req_method : option string;
  req_headers : list (string * string);
  req_body : option string
}.

(** What the code does to the outside, in order. *)
Inductive Event : Type :=
| Fetch (req : Request)
| ConsoleError (label : string) (e : JsError)
| SetTasks (ts : list Task)
| Alert (title msg : string).

(** The list screen's [tasks] state and the events so far. *)
Record World : Type := mkWorld {
  tasks : list Task;
  trace : list Event
}.

(** An asynchronous computation: it transforms the world and completes
    with a value or a rejection. *)
Definition async (A : Type) : Type := World -> completion A * World.

Definition ret {A : Type} (a : A) : async A := fun w => (Return a, w).

Definition throw {A : Type} (e : JsError) : async A := fun w => (Throw e, w).

Definition lift {A : Type} (c : completion A) : async A := fun w => (c, w).

Definition abind {A B : Type} (c : async A) (k : A -> async B) : async B :=
  fun w =>
    match c w with
    | (Return a, w') => k a w'
    | (Throw e, w') => (Throw e, w')
    end.

(** [try { c } catch (error) { handler }] *)
Definition try_catch {A : Type} (c : async A) (handler : JsError -> async A)
  : async A :=
  fun w =>
    match c w with
    | (Return a, w') => (Return a, w')
    | (Throw e, w') => handler e w'
    end.

Definition emit (ev : Event) : async unit :=
  fun w => (Return tt, mkWorld (tasks w) (trace w ++ [ev])).

(** The fetches in a trace. *)
Fixpoint fetches (evs : list Event) : list Request :=
  match evs with
  | [] => []
  | Fetch req :: evs' => req :: fetches evs'
  | _ :: evs' => fetches evs'
  end.

End Semantics.

Notation "x <~ c ;; k" := (abind c (fun x => k))
  (at level 61, c at next level, right associativity).

(* ================================================================= *)
(** ** The API service *)

(** What surrounds the service: the network's answer to a request (a
    response, or the rejection of [fetch] on a transport failure) and
    the configuration value [process.env.EXPO_PUBLIC_API_URL]. *)
Class Environment : Type := {
  network : Request -> completion Response;
  EXPO_PUBLIC_API_URL : option string
}.

Section Api.

Context `{RT : Runtime} `{ENV : Environment}.

Definition API_URL : option string :=
  option_map strip_trailing_slash EXPO_PUBLIC_API_URL.

(** An optional string inside a template literal. *)
Definition interpolate (o : option string) : string :=
  match o with
  | Some s => s
  | None => "undefined"
  end.

(** [await fetch(url, init)] *)
Definition fetch (req : Request) : async Response :=
  fun w => (network req, mkWorld (tasks w) (trace w ++ [Fetch req])).

Definition register (email password : string) : async jsval :=
  try_catch
    (res <~ fetch (mkRequest (interpolate API_URL ++ "/auth/register")
                     (Some "POST")
                     [("Content-Type", "application/json");
                      ("Accept", "application/json")]
                     (Some (JSON_stringify
                              (VObj [("email", VStr email);
                                     ("password", VStr password)])))) ;;
     json <~ lift (handleResponse res) ;;
     data <~ lift (get json "data") ;;
     if truthy data then ret data else ret json)
    (fun error =>
       throw (Error (or_text (message error) "Error al registrarse"))).

Definition login (email password : string) : async jsval :=
  try_catch
    (res <~ fetch (mkRequest (interpolate API_URL ++ "/auth/login")
                     (Some "POST")
                     [("Content-Type", "application/json");
                      ("Accept", "application/json")]
                     (Some (JSON_stringify
                              (VObj [("email", VStr email);
                                     ("password", VStr password)])))) ;;
     json <~ lift (handleResponse res) ;;
     data <~ lift (get json "data") ;;
     tok <~ (if truthy data then lift (get data "token") else ret data) ;;
     if truthy tok then ret data else ret json)
    (fun error =>
       throw (Error (or_text (message error) "Error al iniciar sesión"))).

Definition getTodos (token : string) : async jsval :=
  try_catch
    (res <~ fetch (mkRequest (interpolate API_URL ++ "/todos") None
                     [("Authorization", "Bearer " ++ token)] None) ;;
     json <~ lift (handleResponse res) ;;
     data <~ lift (get json "data") ;;
     if truthy data && isArray data then ret data
     else if isArray json then ret json
     else ret (VArr []))
    (fun error =>
       _ <~ emit (ConsoleError "GET /todos error:" error) ;;
       throw error).

(** Steps 2 to 4 of [createTodo]: the object [payload]. *)
Definition createTodo_payload (data : NewTaskData) : completion (object number) :=
  title <- match nt_title data with
           | Some t => Return (trim t)
           | None => Throw (TypeError (read_error VUndefined "trim"))
           end ;;
  let payload := [("title", VStr title)] in
  let payload :=
    match nt_location data with
    | Some loc =>
        set "location"
          (VObj [("latitude", VNum (latitude loc));
                 ("longitude", VNum (longitude loc))]) payload
    | None => payload
    end in
  let payload :=
    match nt_photoUri data with
    | Some uri =>
        if truthy (VStr uri) && String.eqb (typeof (@VStr number uri)) "string"
        then set "image" (VStr uri) payload
        else payload
    | None => payload
    end in
  Return payload.

Definition createTodo (token : string) (data : NewTaskData) : async jsval :=
  if negb (truthy (match nt_title data with
                   | Some t => VStr (trim t)
                   | None => VUndefined
                   end))
  then throw (Error "El título es obligatorio")
  else
    payload <~ lift (createTodo_payload data) ;;
    try_catch
      (res <~ fetch (mkRequest (interpolate API_URL ++ "/todos")
                       (Some "POST")
                       [("Authorization", "Bearer " ++ token);
                        ("Content-Type", "application/json");
                        ("Accept", "application/json")]
                       (Some (JSON_stringify (VObj payload)))) ;;
       lift (handleResponse res))
      (fun error =>
         throw (Error (or_text (message error) "Error al crear tarea"))).

(** The object [payload] of [updateTodo]. *)
Definition updateTodo_payload (data : UpdateData) : completion (object number) :=
  match data with
  | Legacy completed => Return [("completed", VBool completed)]
  | Partial d =>
      let payload := [] in
      let payload :=
        match ch_title d with
        | Some t => set "title" (VStr t) payload
        | None => payload
        end in
      let payload :=
        match ch_completed d with
        | Some c => set "completed" (VBool c) payload
        | None => payload
        end in
      let payload :=
        match ch_image d with
        | Some (Some s) => set "image" (VStr s) payload
        | Some None => set "image" VNull payload
        | None => payload
        end in
      if truthy (ch_location d) then
        lat <- get (ch_location d) "latitude" ;;
        lon <- get (ch_location d) "longitude" ;;
        Return (set "location"
                  (VObj [("latitude", lat); ("longitude", lon)]) payload)
      else Return payload
  end.

Definition updateTodo (id token : string) (data : UpdateData) : async jsval :=
  try_catch
    (payload <~ lift (updateTodo_payload data) ;;
     res <~ fetch (mkRequest (interpolate API_URL ++ "/todos/" ++ id)
                     (Some "PATCH")
                     [("Authorization", "Bearer " ++ token);
                      ("Content-Type", "application/json")]
                     (Some (JSON_stringify (VObj payload)))) ;;
     lift (handleResponse res))
    (fun error =>
       throw (Error (or_text (message error) "Error al actualizar tarea"))).

Definition deleteTodo (id token : string) : async jsval :=
  try_catch
    (res <~ fetch (mkRequest (interpolate API_URL ++ "/todos/" ++ id)
                     (Some "DELETE")
                     [("Authorization", "Bearer " ++ token)] None) ;;
     _ <~ lift (handleResponse res) ;;
     ret VUndefined)
    (fun error =>
       throw (Error (or_text (message error) "Error al eliminar tarea"))).

(* ================================================================= *)
(** ** The list screen: handleToggle *)

(** The [tasks] of the current render. *)
Definition useTasks : async (list Task) := fun w => (Return (tasks w), w).

(** [setTasks(f)] with an updater function; [setTasks(ts)] is
    [setTasks (fun _ => ts)]. *)
Definition setTasks (f : list Task -> list Task) : async unit :=
  fun w =>
    let ts := f (tasks w) in
    (Return tt, mkWorld ts (trace w ++ [SetTasks ts])).

(** [{ ...t, completed: c }] *)
Definition with_completed (t : Task) (c : bool) : Task :=
  mkTask (task_id t) (task_title t) c (task_image t) (task_location t).

(** [token] is the session's [string | null]. *)
Definition handleToggle (token : option string) (id : string)
  (currentStatus : bool) : async unit :=
  match token with
  | None => ret tt
  | Some EmptyString => ret tt
  | Some tok =>
      previousTasks <~ useTasks ;;
      _ <~ setTasks (map (fun t =>
                            if String.eqb (task_id t) id
                            then with_completed t (negb currentStatus)
                            else t)) ;;
      try_catch
        (_ <~ updateTodo id tok (Legacy (negb currentStatus)) ;;
         ret tt)
        (fun error =>
           _ <~ emit (ConsoleError "Toggle error:" error) ;;
           _ <~ setTasks (fun _ => previousTasks) ;;
           emit (Alert "Error" "No se pudo actualizar la tarea"))
  end.

End Api.

(* ================================================================= *)
(** ** What the specification expects *)

Section Expected.

Context `{RT : Runtime} `{ENV : Environment}.

(** The text of a field of an error body: the string itself, the JSON
    text of an object or an array, the printed form of another value. *)
Definition field_text (v : jsval) : string :=
  match v with
  | VStr s => s
  | VObj _ => JSON_stringify v
  | VArr _ => JSON_stringify v
  | VNum n => Number_toString n
  | VBool true => "true"
  | VBool false => "false"
  | VNull => "null"
  | VUndefined => "undefined"
  end.

(** The [catch] clauses of the facade: an error is thrown again as an
    [Error] with the same message, or with [fallback] when it has none. *)
Definition rethrow {A : Type} (fallback : string) (c : completion A)
  : completion A :=
  match c with
  | Return a => Return a
  | Throw e => Throw (Error (or_text (message e) fallback))
  end.

(** The requests the specification's wire contract describes. *)
Definition create_request (token : string) (payload : object number) : Request :=
  mkRequest (interpolate API_URL ++ "/todos") (Some "POST")
    [("Authorization", "Bearer " ++ token);
     ("Content-Type", "application/json");
     ("Accept", "application/json")]
    (Some (JSON_stringify (VObj payload))).

Definition update_request (id token : string) (payload : object number) : Request :=
  mkRequest (interpolate API_URL ++ "/todos/" ++ id) (Some "PATCH")
    [("Authorization", "Bearer " ++ token);
     ("Content-Type", "application/json")]
    (Some (JSON_stringify (VObj payload))).

Definition delete_request (id token : string) : Request :=
  mkRequest (interpolate API_URL ++ "/todos/" ++ id) (Some "DELETE")
    [("Authorization", "Bearer " ++ token)] None.

Definition list_request (token : string) : Request :=
  mkRequest (interpolate API_URL ++ "/todos") None
    [("Authorization", "Bearer " ++ token)] None.

(** One fetch: the world after it. *)
Definition after (w : World) (req : Request) : World :=
  mkWorld (tasks w) (trace w ++ [Fetch req]).

(** The value a defined [image] puts in the payload. *)
Definition image_value (i : option string) : jsval :=
  match i with
  | Some s => VStr s
  | None => VNull
  end.

End Expected.

(* ================================================================= *)
(** ** A runtime to compute with *)

(** An executable [Runtime] for the part of JavaScript whose numbers are
    integers: JSON texts are parsed by recursive descent (numbers without
    fraction or exponent, strings with the two-character escapes) and
    printed compactly, as [JSON.stringify] does.  The general theorems
    below hold for every runtime; this one evaluates them on concrete
    responses and inputs. *)
Module IntRuntime.

Definition dquote : ascii := "034"%char.
Definition backslash : ascii := "092"%char.

(** Writes a JSON text with ['] for the double quote. *)
Fixpoint js (s : string) : string :=
  match s with
  | EmptyString => EmptyString
  | String a r => String (if Ascii.eqb a "'" then dquote else a) (js r)
  end.

Definition show_Z (z : Z) : string := NilZero.string_of_int (Z.to_int z).

Definition is_json_ws (a : ascii) : bool :=
  let n := N_of_ascii a in ((n =? 32) || (n =? 9) || (n =? 10) || (n =? 13))%N.

Fixpoint skip_ws (s : string) : string :=
  match s with
  | EmptyString => EmptyString
  | String a r => if is_json_ws a then skip_ws r else s
  end.

Fixpoint strip_prefix (p s : string) : option string :=
  match p, s with
  | EmptyString, _ => Some s
  | String a p', String b s' => if Ascii.eqb a b then strip_prefix p' s' else None
  | String _ _, EmptyString => None
  end.

Definition unescape (a : ascii) : option ascii :=
  if Ascii.eqb a dquote then Some dquote
  else if Ascii.eqb a backslash then Some backslash
  else if Ascii.eqb a "/" then Some "/"%char
  else if Ascii.eqb a "b" then Some "008"%char
  else if Ascii.eqb a "f" then Some "012"%char
  else if Ascii.eqb a "n" then Some "010"%char
  else if Ascii.eqb a "r" then Some "013"%char
  else if Ascii.eqb a "t" then Some "009"%char
  else None.

(** The characters of a string literal after its opening quote, and the
    text after its closing quote. *)
Fixpoint parse_chars (s : string) : option (string * string) :=
  match s with
  | EmptyString => None
  | String a r =>
      if Ascii.eqb a dquote then Some (EmptyString, r)
      else if Ascii.eqb a backslash then
        match r with
        | EmptyString => None
        | String e r' =>
            match unescape e, parse_chars r' with
            | Some c, Some (str, rest) => Some (String c str, rest)
            | _, _ => None
            end
        end
      else if (N_of_ascii a <? 32)%N then None
      else match parse_chars r with
           | Some (str, rest) => Some (String a str, rest)
           | None => None
           end
  end.

Definition digit (a : ascii) : option Z :=
  let n := N_of_ascii a in
  if ((48 <=? n) && (n <=? 57))%N then Some (Z.of_N n - 48)%Z else None.

Fixpoint parse_digits (s : string) (acc : Z) : Z * string :=
  match s with
  | EmptyString => (acc, s)
  | String a r =>
      match digit a with
      | Some d => parse_digits r (10 * acc + d)%Z
      | None => (acc, s)
      end
  end.

(** [0] or a digit sequence without a leading zero; a fraction or an
    exponent is outside this runtime. *)
Definition parse_nat (s : string) : option (Z * string) :=
  match s with
  | EmptyString => None
  | String a r =>
      match digit a with
      | None => None
      | Some d =>
          let '(n, rest) := if (d =? 0)%Z then (0%Z, r) else parse_digits r d in
          match rest with
          | String b _ =>
              if Ascii.eqb b "." || Ascii.eqb b "e" || Ascii.eqb b "E"
              then None else Some (n, rest)
          | EmptyString => Some (n, rest)
          end
      end
  end.

Fixpoint parse_val (fuel : nat) (s : string) : option (value Z * string) :=
  match fuel with
  | O => None
  | S f =>
      match skip_ws s with
      | EmptyString => None
      | String a r as s' =>
          if Ascii.eqb a "{" then
            match skip_ws r with
            | String b r' =>
                if Ascii.eqb b "}" then Some (VObj [], r')
                else parse_members f r []
            | EmptyString => None
            end
          else if Ascii.eqb a "[" then
            match skip_ws r with
            | String b r' =>
                if Ascii.eqb b "]" then Some (VArr [], r')
                else parse_items f r []
            | EmptyString => None
            end
          else if Ascii.eqb a dquote then
            match parse_chars r with
            | Some (str, rest) => Some (VStr str, rest)
            | None => None
            end
          else if Ascii.eqb a "-" then
            match parse_nat r with
            | Some (n, rest) => Some (VNum (- n)%Z, rest)
            | None => None
            end
          else
            match strip_prefix "null" s', strip_prefix "true" s',
                  strip_prefix "false" s' with
            | Some rest, _, _ => Some (VNull, rest)
            | _, Some rest, _ => Some (VBool true, rest)
            | _, _, Some rest => Some (VBool false, rest)
            | _, _, _ =>
                match parse_nat s' with
                | Some (n, rest) => Some (VNum n, rest)
                | None => None
                end
            end
      end
  end
with parse_items (fuel : nat) (s : string) (acc : list (value Z))
  : option (value Z * string) :=
  match fuel with
  | O => None
  | S f =>
      match parse_val f s with
      | None => None
      | Some (v, r) =>
          match skip_ws r with
          | String b r' =>
              if Ascii.eqb b "," then parse_items f r' (acc ++ [v])
              else if Ascii.eqb b "]" then Some (VArr (acc ++ [v]), r')
              else None
          | EmptyString => None
          end
      end
  end
with parse_members (fuel : nat) (s : string) (acc : object Z)
  : option (value Z * string) :=
  match fuel with
  | O => None
  | S f =>
      match skip_ws s with
      | String q r =>
          if Ascii.eqb q dquote then
            match parse_chars r with
            | None => None
            | Some (k, r1) =>
                match skip_ws r1 with
                | String c r2 =>
                    if Ascii.eqb c ":" then
                      match parse_val f r2 with
                      | None => None
                      | Some (v, r3) =>
                          match skip_ws r3 with
                          | String b r4 =>
                              if Ascii.eqb b "," then parse_members f r4 (set k v acc)
                              else if Ascii.eqb b "}" then Some (VObj (set k v acc), r4)
                              else None
                          | EmptyString => None
                          end
                      end
                    else None
                | EmptyString => None
                end
            end
          else None
      | EmptyString => None
      end
  end.

(** [JSON.parse]: one value, then only white space. *)
Definition parse (s : string) : option (value Z) :=
  match parse_val (2 * String.length s + 2) s with
  | Some (v, rest) =>
      match skip_ws rest with
      | EmptyString => Some v
      | _ => None
      end
  | None => None
  end.

Definition hex_digit (n : N) : ascii :=
  ascii_of_N (if (n <? 10)%N then 48 + n else 87 + n).

(** The characters of a string inside its quotes. *)
Fixpoint quote_chars (s : string) : string :=
  match s with
  | EmptyString => EmptyString
  | String a r =>
      let n := N_of_ascii a in
      (if Ascii.eqb a dquote then String backslash (String dquote EmptyString)
       else if Ascii.eqb a backslash then String backslash (String backslash EmptyString)
       else if (n =? 8)%N then String backslash "b"
       else if (n =? 12)%N then String backslash "f"
       else if (n =? 10)%N then String backslash "n"
       else if (n =? 13)%N then String backslash "r"
       else if (n =? 9)%N then String backslash "t"
       else if (n <? 32)%N then
         String backslash
           ("u00" ++ String (hex_digit (n / 16)) (String (hex_digit (n mod 16)) EmptyString))
       else String a EmptyString)
      ++ quote_chars r
  end.

Definition quote (s : string) : string :=
  String dquote (quote_chars s ++ String dquote EmptyString).

(** [JSON.stringify]: a property whose value is [undefined] is left out,
    an [undefined] element of an array is printed as [null]. *)
Fixpoint stringify (v : value Z) : string :=
  match v with
  | VUndefined => EmptyString
  | VNull => "null"
  | VBool true => "true"
  | VBool false => "false"
  | VNum n => show_Z n
  | VStr s => quote s
  | VArr items =>
      "[" ++
      (fix elems (l : list (value Z)) : string :=
         match l with
         | [] => EmptyString
         | x :: l' =>
             (match x with
              | VUndefined => "null"
              | _ => stringify x
              end)
             ++ match l' with
                | [] => EmptyString
                | _ => "," ++ elems l'
                end
         end) items
      ++ "]"
  | VObj props =>
      "{" ++
      (fix members (first : bool) (l : list (string * value Z)) : string :=
         match l with
         | [] => EmptyString
         | (k, x) :: l' =>
             match x with
             | VUndefined => members first l'
             | _ =>
                 (if first then EmptyString else ",")
                 ++ quote k ++ ":" ++ stringify x ++ members false l'
             end
         end) true props
      ++ "}"
  end.



#[export] Instance runtime : Runtime.
Proof.
  refine {|
    number := Z;
    Number_truthy := fun n => negb (n =? 0)%Z;
    Number_toString := show_Z;
    JSON_parse := parse;
    JSON_stringify := stringify;
    read_error := fun v k =>
      "Cannot read property '" ++ k ++ "' of " ++
      match v with VNull => "null" | _ => "undefined" end;
    parse_error := fun _ => "JSON Parse error";
    JSON_parse_empty := eq_refl;
    Number_toString_nonempty := _;
    JSON_stringify_nonempty := _
  |}.
  - intros z. unfold show_Z. destruct (Z.to_int z) as [u | u]; simpl.
    + destruct u; simpl; discriminate.
    + discriminate.
  - intros v. destruct v; simpl; intros Ht Hn; discriminate.
Defined.

End IntRuntime.

(* ================================================================= *)
(** ** Sample responses, inputs and surroundings *)

(** The network answers every request with [c]. *)
Definition answering (c : completion Response) : Environment := {|
  network := fun _ => c;
  EXPO_PUBLIC_API_URL := Some "https://todo.example/api/"
|}.

Definition world0 : World (RT := IntRuntime.runtime) := mkWorld [] [].

Definition no_content : Response := mkResponse 204 "No Content" EmptyString.

Definition ok_null : Response := mkResponse 200 "OK" "null".

Definition bad_request_empty_message : Response :=
  mkResponse 400 "Bad Request" (IntRuntime.js "{'message':''}").

Definition unauthorized_error_object : Response :=
  mkResponse 401 "Unauthorized"
    (IntRuntime.js "{'message':'','error':{'code':7,'reason':'token expired'}}").

Definition server_error_empty : Response :=
  mkResponse 500 "Internal Server Error" EmptyString.

Definition not_found_empty_object : Response := mkResponse 404 "Not Found" "{}".

Definition buy_milk : NewTaskData (RT := IntRuntime.runtime) :=
  mkNewTaskData (Some "  Buy milk  ") None None.

Definition only_title (t : string) : Changes (RT := IntRuntime.runtime) :=
  mkChanges None (Some t) None VUndefined.

Definition two_tasks : World (RT := IntRuntime.runtime) :=
  mkWorld [mkTask "1" "Buy milk" false None VUndefined;
           mkTask "2" "Walk the dog" true (Some "https://picsum.photos/200") VNull]
          [].

(* ================================================================= *)
(** ** The list screen: handleDelete *)

Section ListScreen.

Context `{RT : Runtime} `{ENV : Environment}.




End ListScreen.

(* ================================================================= *)
(** ** The calls of the facade *)

Section Operations.

Context `{RT : Runtime} `{ENV : Environment}.

(** A call of one of the six operations of [api]. *)
Inductive Operation : Type :=
| OpRegister (email password : string)
| OpLogin (email password : string)
| OpList (token : string)
| OpCreate (token : string) (data : NewTaskData)
| OpUpdate (id token : string) (data : UpdateData)
| OpDelete (id token : string).

Definition run (op : Operation) : async jsval :=
  match op with
  | OpRegister email password => register email password
  | OpLogin email password => login email password
  | OpList token => getTodos token
  | OpCreate token data => createTodo token data
  | OpUpdate id token data => updateTodo id token data
  | OpDelete id token => deleteTodo id token
  end.

(** The request of [register] and [login]. *)
Definition auth_request (path email password : string) : Request :=
  mkRequest (interpolate API_URL ++ path) (Some "POST")
    [("Content-Type", "application/json"); ("Accept", "application/json")]
    (Some (JSON_stringify
             (VObj [("email", VStr email); ("password", VStr password)]))).

(** The request a call sends; none for a [createTodo] whose title is
    missing or blank. *)
Definition request_of (op : Operation) : option Request :=
  match op with
  | OpRegister email password =>
      Some (auth_request "/auth/register" email password)
  | OpLogin email password =>
      Some (auth_request "/auth/login" email password)
  | OpList token => Some (list_request token)
  | OpCreate token data =>
      match nt_title data, createTodo_payload data with
      | Some t, Return payload =>
          if String.eqb (trim t) EmptyString then None
          else Some (create_request token payload)
      | _, _ => None
      end
  | OpUpdate id token data =>
      match updateTodo_payload data with
      | Return payload => Some (update_request id token payload)
      | Throw _ => None
      end
  | OpDelete id token => Some (delete_request id token)
  end.

(** The message an operation's [catch] gives to an error that has none;
    [getTodos] throws the error on as it is. *)
Definition fallback (op : Operation) : option string :=
  match op with
  | OpRegister _ _ => Some "Error al registrarse"
  | OpLogin _ _ => Some "Error al iniciar sesión"
  | OpList _ => None
  | OpCreate _ _ => Some "Error al crear tarea"
  | OpUpdate _ _ _ => Some "Error al actualizar tarea"
  | OpDelete _ _ => Some "Error al eliminar tarea"
  end.

(** The error a caller sees when the operation's [try] block threw [e]. *)
Definition rethrown (op : Operation) (e : JsError) : JsError :=
  match fallback op with
  | Some text => Error (or_text (message e) text)
  | None => e
  end.

(** The operation's [try] and [catch] around the completion [c]. *)
Definition caught (op : Operation) (c : completion jsval) : completion jsval :=
  match c with
  | Return v => Return v
  | Throw e => Throw (rethrown op e)
  end.

(** A task without its [completed] flag. *)
Definition unflagged (t : Task) : Task := with_completed t false.

(** [v.k] where [v] is truthy. *)
Definition field (v : jsval) (k : string) : jsval :=
  match v with
  | VObj o => prop o k
  | _ => VUndefined
  end.

End Operations.

(* ================================================================= *)
(** ** The form screens: handleSaveTask and handleUpdate *)

(** What the form screens take from the device, the router and the
    runtime: [Date.now()], [router.canGoBack()] and
    [String.prototype.toLowerCase]. *)
Class Device : Type := {
  Date_now : N;
  canGoBack : bool;
  toLowerCase : string -> string
}.

Section FormScreens.

Context `{RT : Runtime} `{ENV : Environment} `{DEV : Device}.

(** What a form screen does, in order: the events of the service and of
    [Alert], the writes of its own state, the router's moves. *)
Inductive UiEvent : Type :=
| Service (e : Event)
| SetIsLoading (b : bool)
| SetIsSaving (b : bool)
| ConsoleLog (e : JsError)
| ConsoleErrorValue (e : JsError)
| RouterBack
| RouterReplace (path : string).

Record Ui : Type := mkUi {
  ui_world : World;
  ui_trace : list UiEvent
}.

(** A handler of a form screen. *)
Definition screen (A : Type) : Type := Ui -> completion A * Ui.

Definition sret {A : Type} (a : A) : screen A := fun u => (Return a, u).

Definition sbind {A B : Type} (c : screen A) (k : A -> screen B) : screen B :=
  fun u =>
    match c u with
    | (Return a, u') => k a u'
    | (Throw e, u') => (Throw e, u')
    end.

(** [try { c } catch (e) { handler }] *)
Definition scatch {A : Type} (c : screen A) (handler : JsError -> screen A)
  : screen A :=
  fun u =>
    match c u with
    | (Return a, u') => (Return a, u')
    | (Throw e, u') => handler e u'
    end.

(** [c finally { final }] *)
Definition finally {A : Type} (c : screen A) (final : screen unit) : screen A :=
  fun u =>
    let (r, u1) := c u in
    match final u1 with
    | (Return _, u2) => (r, u2)
    | (Throw e, u2) => (Throw e, u2)
    end.

Definition say (ev : UiEvent) : screen unit :=
  fun u => (Return tt, mkUi (ui_world u) (ui_trace u ++ [ev])).

(** [Alert.alert(title, msg)] *)
Definition alert (title msg : string) : screen unit :=
  say (Service (Alert title msg)).

(** [await c] for a call of the service: its events join the screen's. *)
Definition call {A : Type} (c : async A) : screen A :=
  fun u =>
    let (r, w') := c (ui_world u) in
    (r, mkUi w'
          (ui_trace u
           ++ map Service (skipn (length (trace (ui_world u))) (trace w')))).

(** The placeholder sent in place of a local photo. *)
Definition placeholder : string :=
  "https://picsum.photos/200?random=" ++ show_N Date_now.

(** The object the screens build from [locationData]. *)
Definition location_copy (l : Location) : Location :=
  mkLocation (latitude l) (longitude l) (timestamp l).

(** [handleSaveTask] of the create screen, with the screen's state
    [title], [photoUri] and [locationData]. *)
Definition handleSaveTask (token : option string) (title : string)
  (photoUri : option string) (locationData : option Location) : screen unit :=
  match token with
  | None => alert "Error" "No estás autenticado"
  | Some EmptyString => alert "Error" "No estás autenticado"
  | Some tok =>
      if negb (truthy (@VStr number (trim title)))
      then alert "Error" "El título es obligatorio"
      else
        sbind (say (SetIsLoading true)) (fun _ =>
        finally
          (scatch
             (let imageToSend :=
                match photoUri with
                | Some EmptyString => None
                | Some _ => Some placeholder
                | None => None
                end in
              sbind (call (createTodo tok
                             (mkNewTaskData (Some (trim title)) imageToSend
                                (option_map location_copy locationData))))
                (fun _ =>
              sbind (alert "Éxito" "Tarea creada") (fun _ =>
              if canGoBack then say RouterBack
              else say (RouterReplace "/home/todo-list"))))
             (fun e =>
                sbind (say (ConsoleLog e)) (fun _ =>
                let msg := or_text (toLowerCase (message e)) EmptyString in
                if includes msg "401" || includes msg "unauthorized"
                then alert "Error" "Sesión expirada"
                else alert "Error al guardar"
                       (or_text (message e) "Inténtalo de nuevo"))))
          (say (SetIsLoading false)))
  end.

(** The [location] the edit screen passes to [updateTodo]. *)
Definition location_value (locationData : option Location) : jsval :=
  match locationData with
  | Some l =>
      VObj [("latitude", VNum (latitude l));
            ("longitude", VNum (longitude l));
            ("timestamp", match timestamp l with
                          | Some n => VNum n
                          | None => VUndefined
                          end)]
  | None => VUndefined
  end.

(** [handleUpdate] of the edit screen, with the route's [id] and the
    screen's state [title], [completed], [photoUri] and
    [locationData]. *)
Definition handleUpdate (token : option string) (id title : string)
  (completed : bool) (photoUri : option string)
  (locationData : option Location) : screen unit :=
  match token with
  | None => sret tt
  | Some EmptyString => sret tt
  | Some tok =>
      if negb (truthy (@VStr number (trim title)))
      then alert "Error" "El título es obligatorio"
      else
        sbind (say (SetIsSaving true)) (fun _ =>
        finally
          (scatch
             (let imageToSend :=
                match photoUri with
                | Some uri =>
                    if negb (String.eqb uri EmptyString) && prefix "file:" uri
                    then Some placeholder
                    else Some uri
                | None => None
                end in
              sbind (call (updateTodo id tok
                             (Partial (mkChanges (Some completed)
                                         (Some (trim title))
                                         (Some imageToSend)
                                         (location_value locationData)))))
                (fun _ =>
              sbind (alert "Éxito" "Tarea actualizada correctamente") (fun _ =>
              say RouterBack)))
             (fun e =>
                sbind (say (ConsoleErrorValue e)) (fun _ =>
                alert "Error" (or_text (message e) "No se pudo actualizar"))))
          (say (SetIsSaving false)))
  end.

(** The [location] of a payload: latitude and longitude. *)
Definition location_entry (locationData : option Location) : object number :=
  match locationData with
  | Some l => [("location", VObj [("latitude", VNum (latitude l));
                                  ("longitude", VNum (longitude l))])]
  | None => []
  end.

(** The payload the create screen is expected to send. *)
Definition save_payload (title : string) (photoUri : option string)
  (locationData : option Location) : object number :=
  ([("title", VStr (trim title))]
   ++ location_entry locationData
   ++ match photoUri with
      | Some EmptyString => []
      | Some _ => [("image", VStr placeholder)]
      | None => []
      end)%list.

(** The payload the edit screen is expected to send. *)
Definition edit_payload (title : string) (completed : bool)
  (photoUri : option string) (locationData : option Location)
  : object number :=
  ([("title", VStr (trim title));
    ("completed", VBool completed);
    ("image", match photoUri with
              | None => VNull
              | Some uri => if prefix "file:" uri then VStr placeholder
                            else VStr uri
              end)]
   ++ location_entry locationData)%list.

(** The alert of the create screen for a failure with message [m]. *)
Definition save_failure_alert (m : string) : Event :=
  if includes (toLowerCase m) "401" || includes (toLowerCase m) "unauthorized"
  then Alert "Error" "Sesión expirada"
  else Alert "Error al guardar" m.

(** The events of the service in a screen's trace. *)
Fixpoint service_events (evs : list UiEvent) : list Event :=
  match evs with
  | [] => []
  | Service e :: evs' => e :: service_events evs'
  | _ :: evs' => service_events evs'
  end.

End FormScreens.

(* ================================================================= *)
(** ** More sample responses and a sample device *)

Definition bad_gateway_html : Response :=
  mkResponse 502 "Bad Gateway"
    "<!DOCTYPE html><html><body>Bad Gateway</body></html>".

Definition conflict_json_text : Response :=
  mkResponse 409 "Conflict" (IntRuntime.js "'Title already used'").

Definition ok_enveloped_list : Response :=
  mkResponse 200 "OK"
    (IntRuntime.js
       "{'success':true,'data':[{'id':'1','title':'Buy milk','completed':false}]}").

Definition ok_login_enveloped : Response :=
  mkResponse 200 "OK" (IntRuntime.js "{'success':true,'data':{'token':'abc'}}").

Definition ok_registered : Response :=
  mkResponse 201 "Created"
    (IntRuntime.js "{'success':true,'data':{'id':'u1','email':'ana@example.com'}}").

Definition ok_created_enveloped : Response :=
  mkResponse 201 "Created"
    (IntRuntime.js "{'data':{'id':'9','title':'Buy milk'}}").

Definition ok_empty : Response := mkResponse 200 "OK" EmptyString.

(** Lower case of the letters A-Z. *)
Fixpoint lower_ascii (s : string) : string :=
  match s with
  | EmptyString => EmptyString
  | String a r =>
      let n := N_of_ascii a in
      String (if ((65 <=? n) && (n <=? 90))%N then ascii_of_N (n + 32) else a)
        (lower_ascii r)
  end.

Definition phone : Device := {|
  Date_now := 1700000000000;
  canGoBack := true;
  toLowerCase := lower_ascii
|}.

Definition screen0 : Ui (RT := IntRuntime.runtime) := mkUi world0 [].

Definition santiago : Location (RT := IntRuntime.runtime) :=
  @mkLocation IntRuntime.runtime (-33)%Z (-70)%Z (Some 1699999999000%Z).

(* ================================================================= *)
(** * Properties *)

(** ** Strings and objects *)

Lemma or_text_nonempty (a b : string) : a <> EmptyString -> or_text a b = a.
Proof. destruct a; [congruence | reflexivity]. Qed.

Lemma trimStart_ws (w s : string) :
  In w whitespace_chars -> trimStart (w ++ s) = trimStart s.
Proof.
  unfold whitespace_chars. simpl.
  intros H. repeat (destruct H as [<- | H]; [reflexivity | ]). contradiction.
Qed.

Lemma blank_trimStart (s : string) : blank s -> trimStart s = EmptyString.
Proof.
  induction 1 as [ | w s Hw _ IH]; [reflexivity | ].
  rewrite trimStart_ws by exact Hw. exact IH.
Qed.

Lemma blank_trim (s : string) : blank s -> trim s = EmptyString.
Proof. intros H. unfold trim. rewrite (blank_trimStart s H). reflexivity. Qed.

Lemma ascii_of_code (a : ascii) (n : N) : N_of_ascii a = n -> a = ascii_of_N n.
Proof. intros <-. symmetry. apply ascii_N_embedding. Qed.

Ltac bool_hyps :=
  repeat match goal with
    | H : _ || _ = true |- _ => apply orb_true_iff in H; destruct H as [H | H]
    | H : _ && _ = true |- _ =>
        let H' := fresh H in
        apply andb_true_iff in H; destruct H as [H H']
    | H : (_ =? _)%N = true |- _ => apply N.eqb_eq in H
    | H : (_ <=? _)%N = true |- _ => apply N.leb_le in H
    end.

Ltac code_known :=
  repeat match goal with
    | H : N_of_ascii ?a = _ |- _ => apply ascii_of_code in H; subst a
    end;
  vm_compute; tauto.

Lemma ws1_chars (a : ascii) :
  ws1 (N_of_ascii a) = true -> In (String a EmptyString) whitespace_chars.
Proof.
  unfold ws1. intros H. bool_hyps; [ | code_known].
  assert (Hn : (N_of_ascii a = 9 \/ N_of_ascii a = 10 \/ N_of_ascii a = 11 \/
                N_of_ascii a = 12 \/ N_of_ascii a = 13)%N) by lia.
  clear H H0. repeat (destruct Hn as [Hn | Hn]; [code_known | ]). code_known.
Qed.

Lemma ws2_chars (a b : ascii) :
  ws2 (N_of_ascii a) (N_of_ascii b) = true ->
  In (String a (String b EmptyString)) whitespace_chars.
Proof. unfold ws2. intros H. bool_hyps. code_known. Qed.

Lemma ws3_chars (a b c : ascii) :
  ws3 (N_of_ascii a) (N_of_ascii b) (N_of_ascii c) = true ->
  In (String a (String b (String c EmptyString))) whitespace_chars.
Proof.
  unfold ws3. intros H. bool_hyps; try code_known.
  assert (Hn : (N_of_ascii c = 128 \/ N_of_ascii c = 129 \/ N_of_ascii c = 130 \/
                N_of_ascii c = 131 \/ N_of_ascii c = 132 \/ N_of_ascii c = 133 \/
                N_of_ascii c = 134 \/ N_of_ascii c = 135 \/ N_of_ascii c = 136 \/
                N_of_ascii c = 137 \/ N_of_ascii c = 138)%N) by lia.
  match goal with
  | H1 : (128 <= _)%N, H2 : (_ <= 138)%N |- _ => clear H1 H2
  end.
  repeat (destruct Hn as [Hn | Hn]; [code_known | ]). code_known.
Qed.

Lemma trimStart_empty_blank (n : nat) :
  forall s, String.length s <= n -> trimStart s = EmptyString -> blank s.
Proof.
  induction n as [ | n IH]; intros s Hlen Ht.
  - destruct s; [constructor | simpl in Hlen; lia].
  - destruct s as [ | a r]; [constructor | ].
    simpl in Hlen, Ht.
    destruct (ws1 (N_of_ascii a)) eqn:H1.
    { apply (blank_ws (String a EmptyString) r (ws1_chars a H1)).
      apply IH; [lia | exact Ht]. }
    destruct r as [ | b r2]; [discriminate Ht | ].
    simpl in Hlen.
    destruct (ws2 (N_of_ascii a) (N_of_ascii b)) eqn:H2.
    { apply (blank_ws (String a (String b EmptyString)) r2 (ws2_chars a b H2)).
      apply IH; [lia | exact Ht]. }
    destruct r2 as [ | c r3]; [discriminate Ht | ].
    simpl in Hlen.
    destruct (ws3 (N_of_ascii a) (N_of_ascii b) (N_of_ascii c)) eqn:H3;
      [ | discriminate Ht].
    apply (blank_ws (String a (String b (String c EmptyString))) r3
             (ws3_chars a b c H3)).
    apply IH; [lia | exact Ht].
Qed.

Lemma trimStart_idempotent (s : string) : trimStart (trimStart s) = trimStart s.
Proof.
  remember (String.length s) as n eqn:Hn.
  assert (Hlen : String.length s <= n) by lia. clear Hn.
  revert s Hlen. induction n as [ | n IH]; intros s Hlen.
  - destruct s; [reflexivity | simpl in Hlen; lia].
  - destruct s as [ | a r]; [reflexivity | ].
    simpl in Hlen. cbn [trimStart].
    destruct (ws1 (N_of_ascii a)) eqn:H1; [apply IH; lia | ].
    destruct r as [ | b r2].
    { cbn [trimStart]. rewrite H1. reflexivity. }
    simpl in Hlen.
    destruct (ws2 (N_of_ascii a) (N_of_ascii b)) eqn:H2; [apply IH; lia | ].
    destruct r2 as [ | c r3].
    { cbn [trimStart]. rewrite H1, H2. reflexivity. }
    simpl in Hlen.
    destruct (ws3 (N_of_ascii a) (N_of_ascii b) (N_of_ascii c)) eqn:H3;
      [apply IH; lia | ].
    cbn [trimStart]. rewrite H1, H2, H3. reflexivity.
Qed.

(** The titles [createTodo] rejects are the blank ones. *)
Lemma blank_iff_trim_empty (s : string) : blank s <-> trim s = EmptyString.
Proof.
  split; [apply blank_trim | ].
  unfold trim. intros H.
  apply (trimStart_empty_blank (String.length s)); [lia | ].
  destruct (trimStart s) as [ | a r] eqn:E; [reflexivity | ].
  pose proof (trimStart_idempotent s) as Hi. rewrite E in Hi.
  cbn [trimEnd] in H. rewrite Hi in H. discriminate H.
Qed.

Section Properties.

Context `{RT : Runtime}.


Lemma get_object (o : object number) (k : string) :
  get (VObj o) k = Return (prop o k).
Proof. reflexivity. Qed.

Lemma get_truthy (v : jsval) (k : string) :
  truthy v = true -> exists x, get v k = Return x.
Proof. destruct v; simpl; intros H; try discriminate; eauto. Qed.

Lemma field_text_nonempty (v : jsval) :
  truthy v = true -> field_text v <> EmptyString.
Proof.
  destruct v as [ | | [ | ] | n | s | l | o]; simpl; intros H;
    try discriminate.
  - apply Number_toString_nonempty.
  - destruct s; [discriminate H | discriminate].
  - apply JSON_stringify_nonempty; [reflexivity | discriminate].
  - apply JSON_stringify_nonempty; [reflexivity | discriminate].
Qed.

Lemma try_truthy_field (v : jsval) :
  truthy v = true ->
  (if String.eqb (typeof v) "object"
   then Return (JSON_stringify v)
   else Return (String_ v)) = Return (field_text v).
Proof.
  destruct v as [ | | [ | ] | n | s | l | o]; simpl; intros H;
    try discriminate; reflexivity.
Qed.

(** The [try] block on a body that is a JSON object. *)
Lemma handleResponse_try_object (t : string) (o : object number) :
  JSON_parse t = Some (VObj o) ->
  handleResponse_try t =
    Return (if truthy (prop o "message") then field_text (prop o "message")
            else if truthy (prop o "error") then field_text (prop o "error")
            else t).
Proof.
  intros Hp. unfold handleResponse_try. rewrite Hp.
  cbn [bind]. rewrite !get_object. cbn [bind]. unfold or_else.
  destruct (truthy (prop o "message")) eqn:Hm; cbn [bind].
  - rewrite Hm. apply try_truthy_field. exact Hm.
  - destruct (truthy (prop o "error")) eqn:He; [ | reflexivity].
    apply try_truthy_field. exact He.
Qed.

Lemma JSON_parse_nonempty (t : string) (v : jsval) :
  JSON_parse t = Some v -> t <> EmptyString.
Proof. intros H ->. rewrite JSON_parse_empty in H. discriminate. Qed.

(** ** handleResponse: the error path *)

(** C1 (as amended): for a response that is not ok and whose body parses
    as a JSON object, the thrown error's text is the text of [message]
    when that is truthy, else the text of [error] when that is truthy,
    else the raw body; the text of a value is the string itself,
    [String(value)] for a number or [true], the [JSON.stringify] text for
    an object or an array. *)
Theorem handleResponse_error_field (res : Response) (o : object number) :
  ok res = false ->
  JSON_parse (body res) = Some (VObj o) ->
  handleResponse res =
    Throw (Error (if truthy (prop o "message") then field_text (prop o "message")
                  else if truthy (prop o "error") then field_text (prop o "error")
                  else body res)).
Proof.
  intros Hok Hp.
  unfold handleResponse, errorText_of, text. rewrite Hok. simpl.
  rewrite (handleResponse_try_object _ _ Hp).
  rewrite or_text_nonempty; [reflexivity | ].
  destruct (truthy (prop o "message")) eqn:Hm;
    [apply field_text_nonempty; exact Hm | ].
  destruct (truthy (prop o "error")) eqn:He;
    [apply field_text_nonempty; exact He | ].
  eapply JSON_parse_nonempty. exact Hp.
Qed.

(** A [message] or [error] field that is present but falsy (the empty
    string, [0], [false], [null]) is not used: the raw body is thrown. *)
Lemma handleResponse_falsy_fields (res : Response) (o : object number) :
  ok res = false ->
  JSON_parse (body res) = Some (VObj o) ->
  truthy (prop o "message") = false ->
  truthy (prop o "error") = false ->
  handleResponse res = Throw (Error (body res)).
Proof.
  intros Hok Hp Hm He.
  unfold handleResponse, errorText_of, text. rewrite Hok. simpl.
  rewrite (handleResponse_try_object _ _ Hp), Hm, He.
  rewrite or_text_nonempty by (eapply JSON_parse_nonempty; exact Hp).
  reflexivity.
Qed.

(** C8 (as amended): for a response that is not ok, the thrown text is
    ["Error <status>: <status text>"] when the body is empty; a body
    that is a JSON object without a truthy [message] or [error] is
    thrown as it is. *)
Theorem handleResponse_fallback (res : Response) :
  ok res = false ->
  (body res = EmptyString ->
   handleResponse res =
     Throw (Error ("Error " ++ show_N (status res) ++ ": " ++ statusText res)))
  /\
  (forall o, JSON_parse (body res) = Some (VObj o) ->
             truthy (prop o "message") = false ->
             truthy (prop o "error") = false ->
             handleResponse res = Throw (Error (body res))).
Proof.
  intros Hok. split.
  - intros Hb.
    unfold handleResponse, errorText_of, handleResponse_try, text.
    rewrite Hok, Hb, JSON_parse_empty. reflexivity.
  - intros o. apply handleResponse_falsy_fields. exact Hok.
Qed.

End Properties.

(** ** The facade *)

Section ApiProperties.

Context `{RT : Runtime} `{ENV : Environment}.


Lemma updateTodo_run (id token : string) (data : UpdateData)
  (payload : object number) (w : World) :
  updateTodo_payload data = Return payload ->
  updateTodo id token data w =
    (rethrow "Error al actualizar tarea"
       (res <- network (update_request id token payload) ;; handleResponse res),
     after w (update_request id token payload)).
Proof.
  intros Hp.
  unfold updateTodo, try_catch, abind, lift, fetch, throw.
  rewrite Hp. fold (update_request id token payload).
  destruct (network (update_request id token payload)) as [res | e]; simpl;
    [ | reflexivity].
  destruct (handleResponse res); reflexivity.
Qed.

Lemma createTodo_run (token : string) (data : NewTaskData) (t : string)
  (payload : object number) (w : World) :
  nt_title data = Some t ->
  trim t <> EmptyString ->
  createTodo_payload data = Return payload ->
  createTodo token data w =
    (rethrow "Error al crear tarea"
       (res <- network (create_request token payload) ;; handleResponse res),
     after w (create_request token payload)).
Proof.
  intros Ht Hne Hp.
  unfold createTodo, try_catch, abind, lift, fetch, throw.
  rewrite Ht, Hp. fold (create_request token payload).
  destruct (trim t) eqn:Etrim; [congruence | ]. cbn [truthy String.eqb negb].
  destruct (network (create_request token payload)) as [res | e]; simpl;
    [ | reflexivity].
  destruct (handleResponse res); reflexivity.
Qed.

Lemma deleteTodo_run (id token : string) (w : World) :
  deleteTodo id token w =
    (rethrow "Error al eliminar tarea"
       (res <- network (delete_request id token) ;;
        _ <- handleResponse res ;; Return VUndefined),
     after w (delete_request id token)).
Proof.
  unfold deleteTodo, try_catch, abind, lift, fetch, throw, ret.
  fold (delete_request id token).
  destruct (network (delete_request id token)) as [res | e]; simpl;
    [ | reflexivity].
  destruct (handleResponse res); reflexivity.
Qed.

Lemma getTodos_run (token : string) (w : World) :
  exists evs,
    getTodos token w =
      (res <- network (list_request token) ;;
       json <- handleResponse res ;;
       data <- get json "data" ;;
       if truthy data && isArray data then Return data
       else if isArray json then Return json
       else Return (VArr []),
       mkWorld (tasks w) (trace w ++ Fetch (list_request token) :: evs)).
Proof.
  unfold getTodos, try_catch, abind, lift, fetch, throw, ret, emit.
  fold (list_request token).
  destruct (network (list_request token)) as [res | e]; simpl;
    [ | eexists; rewrite <- app_assoc; reflexivity].
  destruct (handleResponse res) as [json | e]; simpl;
    [ | eexists; rewrite <- app_assoc; reflexivity].
  destruct (get json "data") as [data | e]; simpl;
    [ | eexists; rewrite <- app_assoc; reflexivity].
  exists [].
  destruct (truthy data && isArray data); [reflexivity | ].
  destruct (isArray json); reflexivity.
Qed.

(** The payload of the object form is always built: a truthy [location]
    can be read. *)
Lemma updateTodo_payload_total (data : UpdateData) :
  exists payload, updateTodo_payload data = Return payload.
Proof.
  destruct data as [b | d]; simpl; [eauto | ].
  destruct (truthy (ch_location d)) eqn:Hl; [ | eauto].
  destruct (get_truthy _ "latitude" Hl) as [lat ->].
  destruct (get_truthy _ "longitude" Hl) as [lon ->].
  simpl. eauto.
Qed.

(** ** No content *)

(** C2 (as amended): for a response with status 204, [handleResponse]
    returns [null] whatever the body is and whether or not it is JSON;
    when the network answers with it, [createTodo] and [updateTodo]
    resolve to [null] and [deleteTodo] to no value. *)
Theorem no_content_resolves (res : Response) :
  status res = 204%N ->
  handleResponse res = Return VNull /\
  ((forall req, network req = Return res) ->
   (forall token data t w,
       nt_title data = Some t -> trim t <> EmptyString ->
       fst (createTodo token data w) = Return VNull) /\
   (forall id token data w, fst (updateTodo id token data w) = Return VNull) /\
   (forall id token w, fst (deleteTodo id token w) = Return VUndefined)).
Proof.
  intros Hs.
  assert (Hh : handleResponse res = Return VNull).
  { unfold handleResponse, ok. rewrite Hs. reflexivity. }
  split; [exact Hh | ].
  intros Hnet. repeat split.
  - intros token data t w Ht Hne.
    destruct (nt_title data) as [t' | ] eqn:Et; [ | discriminate].
    assert (Hp : exists payload, createTodo_payload data = Return payload).
    { unfold createTodo_payload. rewrite Et. simpl. eauto. }
    destruct Hp as [payload Hp].
    injection Ht as ->.
    rewrite (createTodo_run token data t payload w Et Hne Hp).
    simpl. rewrite Hnet. simpl. rewrite Hh. reflexivity.
  - intros id token data w.
    destruct (updateTodo_payload_total data) as [payload Hp].
    rewrite (updateTodo_run id token data payload w Hp).
    simpl. rewrite Hnet. simpl. rewrite Hh. reflexivity.
  - intros id token w. rewrite deleteTodo_run.
    simpl. rewrite Hnet. simpl. rewrite Hh. reflexivity.
Qed.

(** ** createTodo *)

(** C3: with a title that is empty or made of white space only (or with
    no title at all), [createTodo] throws the validation error and
    leaves the world as it was: no request is issued. *)
Theorem createTodo_blank_title
  (token : string) (data : NewTaskData) (w : World) :
  match nt_title data with
  | Some t => blank t
  | None => True
  end ->
  createTodo token data w = (Throw (Error "El título es obligatorio"), w).
Proof.
  intros H. unfold createTodo.
  destruct (nt_title data) as [t | ]; [ | reflexivity].
  rewrite (blank_trim t H). reflexivity.
Qed.

(** C7: for an input whose title [t] passes the validation, the payload
    holds the trimmed title, a [location] of latitude and longitude only
    exactly when a location was supplied, and an [image] exactly when the
    photo reference is a non-empty string; the request that goes out
    carries the JSON text of this payload. *)
Theorem createTodo_request
  (token : string) (data : NewTaskData) (t : string) (w : World) :
  nt_title data = Some t ->
  trim t <> EmptyString ->
  let payload :=
    ([("title", VStr (trim t))]
     ++ match nt_location data with
        | Some loc => [("location",
                        VObj [("latitude", VNum (latitude loc));
                              ("longitude", VNum (longitude loc))])]
        | None => []
        end
     ++ match nt_photoUri data with
        | Some uri => if String.eqb uri EmptyString then []
                      else [("image", VStr uri)]
        | None => []
        end)%list in
  createTodo_payload data = Return payload /\
  trace (snd (createTodo token data w)) =
    (trace w ++ [Fetch (create_request token payload)])%list.
Proof.
  intros Ht Hne payload.
  assert (Hp : createTodo_payload data = Return payload).
  { unfold createTodo_payload, payload. rewrite Ht. simpl.
    destruct (nt_location data) as [loc | ];
      destruct (nt_photoUri data) as [[ | a uri] | ]; reflexivity. }
  split; [exact Hp | ].
  rewrite (createTodo_run token data t payload w Ht Hne Hp). reflexivity.
Qed.

(** ** updateTodo *)

(** C4: with the legacy boolean [b], the payload is exactly
    [{ completed: b }], and the request that goes out carries its JSON
    text. *)
Theorem updateTodo_legacy_payload (b : bool) (id token : string) (w : World) :
  updateTodo_payload (Legacy b) = Return [("completed", VBool b)] /\
  trace (snd (updateTodo id token (Legacy b) w)) =
    (trace w ++ [Fetch (update_request id token [("completed", VBool b)])])%list.
Proof.
  split; [reflexivity | ].
  rewrite (updateTodo_run id token (Legacy b) [("completed", VBool b)] w eq_refl).
  reflexivity.
Qed.


(** The payload of the object form, field by field. *)
Lemma updateTodo_payload_fields (d : Changes) :
  exists payload,
    updateTodo_payload (Partial d) = Return payload /\
    (forall k, In k (keys payload) ->
       (k = "title" /\ ch_title d <> None) \/
       (k = "completed" /\ ch_completed d <> None) \/
       (k = "image" /\ ch_image d <> None) \/
       (k = "location" /\ ch_location d <> VUndefined)) /\
    lookup "title" payload = option_map VStr (ch_title d) /\
    lookup "completed" payload = option_map VBool (ch_completed d) /\
    lookup "image" payload = option_map image_value (ch_image d) /\
    (In "location" (keys payload) <-> truthy (ch_location d) = true) /\
    NoDup (keys payload).
Proof.
  unfold updateTodo_payload.
  destruct (truthy (ch_location d)) eqn:Hl.
  - destruct (get_truthy _ "latitude" Hl) as [lat ->].
    destruct (get_truthy _ "longitude" Hl) as [lon ->].
    assert (Hdef : ch_location d <> VUndefined)
      by (intros E; rewrite E in Hl; discriminate).
    destruct (ch_title d) as [t | ], (ch_completed d) as [c | ],
      (ch_image d) as [[s | ] | ]; simpl;
      (eexists; split; [reflexivity | ]);
      (split; [ simpl; intros k Hk;
                repeat (destruct Hk as [<- | Hk];
                        [ solve [ auto 6 | left; split; [reflexivity | discriminate]
                                | right; left; split; [reflexivity | discriminate]
                                | right; right; left; split; [reflexivity | discriminate] ] | ]);
                contradiction | ]);
      repeat split; simpl; auto;
      repeat constructor; simpl; intuition discriminate.
  - destruct (ch_title d) as [t | ], (ch_completed d) as [c | ],
      (ch_image d) as [[s | ] | ]; simpl;
      (eexists; split; [reflexivity | ]);
      (split; [ simpl; intros k Hk;
                repeat (destruct Hk as [<- | Hk];
                        [ solve [ left; split; [reflexivity | discriminate]
                                | right; left; split; [reflexivity | discriminate]
                                | right; right; left; split; [reflexivity | discriminate] ] | ]);
                contradiction | ]);
      repeat split; simpl; auto; try discriminate;
      try (intros H; repeat (destruct H as [H | H]; [discriminate H | ]); contradiction);
      repeat constructor; simpl; intuition discriminate.
Qed.

(** C5: the payload of the object form is always built; each of its keys
    names a field that is defined in the input; [title], [completed] and
    [image] are in it exactly when they are defined (an [image] of
    [null] is, an absent one is not), [location] exactly when it is
    truthy; no key occurs twice; the request that goes out carries the
    JSON text of this payload. *)
Theorem updateTodo_payload_defined_only (d : Changes) :
  exists payload,
    updateTodo_payload (Partial d) = Return payload /\
    (forall k, In k (keys payload) ->
       (k = "title" /\ ch_title d <> None) \/
       (k = "completed" /\ ch_completed d <> None) \/
       (k = "image" /\ ch_image d <> None) \/
       (k = "location" /\ ch_location d <> VUndefined)) /\
    lookup "title" payload = option_map VStr (ch_title d) /\
    lookup "completed" payload = option_map VBool (ch_completed d) /\
    lookup "image" payload = option_map image_value (ch_image d) /\
    (In "location" (keys payload) <-> truthy (ch_location d) = true) /\
    NoDup (keys payload) /\
    (forall id token w,
        trace (snd (updateTodo id token (Partial d) w)) =
          (trace w ++ [Fetch (update_request id token payload)])%list).
Proof.
  destruct (updateTodo_payload_fields d)
    as (payload & Hp & Hkeys & Ht & Hc & Hi & Hl & Hnd).
  exists payload. repeat (split; [assumption | ]).
  intros id token w. rewrite (updateTodo_run id token _ payload w Hp).
  reflexivity.
Qed.

(** C10: a defined title goes into the payload of [updateTodo] as it is,
    white space included, and so into the request, whereas [createTodo]
    puts the trimmed title. *)
Theorem updateTodo_title_verbatim (d : Changes) (t : string) :
  ch_title d = Some t ->
  (exists payload,
      updateTodo_payload (Partial d) = Return payload /\
      lookup "title" payload = Some (VStr t) /\
      forall id token w,
        trace (snd (updateTodo id token (Partial d) w)) =
          (trace w ++ [Fetch (update_request id token payload)])%list) /\
  (forall data, nt_title data = Some t ->
      exists payload,
        createTodo_payload data = Return payload /\
        lookup "title" payload = Some (VStr (trim t))).
Proof.
  intros Ht. split.
  - destruct (updateTodo_payload_fields d)
      as (payload & Hp & _ & Htitle & _).
    exists payload. split; [exact Hp | ].
    split; [rewrite Htitle, Ht; reflexivity | ].
    intros id token w. rewrite (updateTodo_run id token _ payload w Hp).
    reflexivity.
  - intros data Hd. unfold createTodo_payload. rewrite Hd. simpl.
    destruct (nt_location data) as [loc | ];
      destruct (nt_photoUri data) as [[ | a uri] | ]; simpl;
      eexists; split; reflexivity.
Qed.

(** ** getTodos *)

Lemma handleResponse_ok (res : Response) (v : jsval) :
  ok res = true ->
  status res <> 204%N ->
  JSON_parse (body res) = Some v ->
  handleResponse res = Return v.
Proof.
  intros Hok Hs Hp. unfold handleResponse, json. rewrite Hok, Hp. simpl.
  destruct (N.eqb_spec (status res) 204); [contradiction | reflexivity].
Qed.

Lemma getTodos_result (token : string) (w : World) :
  fst (getTodos token w) =
    (res <- network (list_request token) ;;
     json <- handleResponse res ;;
     data <- get json "data" ;;
     if truthy data && isArray data then Return data
     else if isArray json then Return json
     else Return (VArr [])).
Proof. destruct (getTodos_run token w) as [evs ->]. reflexivity. Qed.

(** A body [{ data: ts }] is decoded to [ts]. *)
Lemma getTodos_envelope
  (token : string) (w : World) (res : Response)
  (o : object number) (ts : list jsval) :
  network (list_request token) = Return res ->
  ok res = true -> status res <> 204%N ->
  JSON_parse (body res) = Some (VObj o) ->
  prop o "data" = VArr ts ->
  fst (getTodos token w) = Return (VArr ts).
Proof.
  intros Hn Hok Hs Hp Hd. rewrite getTodos_result, Hn. simpl.
  rewrite (handleResponse_ok res _ Hok Hs Hp). simpl. rewrite Hd. reflexivity.
Qed.

(** A body that is the bare array [ts] is decoded to [ts] as well. *)
Lemma getTodos_bare_array
  (token : string) (w : World) (res : Response) (ts : list jsval) :
  network (list_request token) = Return res ->
  ok res = true -> status res <> 204%N ->
  JSON_parse (body res) = Some (VArr ts) ->
  fst (getTodos token w) = Return (VArr ts).
Proof.
  intros Hn Hok Hs Hp. rewrite getTodos_result, Hn. simpl.
  rewrite (handleResponse_ok res _ Hok Hs Hp). reflexivity.
Qed.

(** Any other JSON value except [null] gives the empty list. *)
Lemma getTodos_other_shape
  (token : string) (w : World) (res : Response) (v : jsval) :
  network (list_request token) = Return res ->
  ok res = true -> status res <> 204%N ->
  JSON_parse (body res) = Some v ->
  v <> VNull -> v <> VUndefined -> isArray v = false ->
  match v with
  | VObj o => isArray (prop o "data") = false
  | _ => True
  end ->
  fst (getTodos token w) = Return (VArr []).
Proof.
  intros Hn Hok Hs Hp Hnull Hundef Harr Hdata.
  rewrite getTodos_result, Hn. simpl.
  rewrite (handleResponse_ok res _ Hok Hs Hp).
  destruct v; try contradiction; try discriminate; simpl; try reflexivity.
  rewrite Hdata, andb_false_r. reflexivity.
Qed.

(** C6 (where the code departs from it): on a 2xx response without
    content, or whose body is the JSON value [null], [getTodos] does not
    return the empty list: [json.data] is read from [null] and the
    TypeError is thrown on by the [catch]. *)
Theorem getTodos_null (token : string) (w : World) (res : Response) :
  network (list_request token) = Return res ->
  ok res = true ->
  status res = 204%N \/ JSON_parse (body res) = Some VNull ->
  fst (getTodos token w) = Throw (TypeError (read_error VNull "data")).
Proof.
  intros Hn Hok Hcase. rewrite getTodos_result, Hn. simpl.
  assert (Hh : handleResponse res = Return VNull).
  { unfold handleResponse, json. rewrite Hok. simpl.
    destruct (N.eqb_spec (status res) 204); [reflexivity | ].
    destruct Hcase as [Hs | Hp]; [contradiction | ]. rewrite Hp. reflexivity. }
  rewrite Hh. reflexivity.
Qed.

(** ** handleToggle *)

(** What a run of [handleToggle] with a session token does. *)
Lemma handleToggle_run
  (tok id : string) (currentStatus : bool) (w : World) :
  tok <> EmptyString ->
  handleToggle (Some tok) id currentStatus w =
    let optimistic :=
      map (fun t => if String.eqb (task_id t) id
                    then with_completed t (negb currentStatus)
                    else t) (tasks w) in
    let req := update_request id tok [("completed", VBool (negb currentStatus))] in
    let during := after (mkWorld optimistic (trace w ++ [SetTasks optimistic])) req in
    match (res <- network req ;; handleResponse res) with
    | Return _ => (Return tt, during)
    | Throw e =>
        (Return tt,
         mkWorld (tasks w)
           (((trace during
              ++ [ConsoleError "Toggle error:"
                    (Error (or_text (message e) "Error al actualizar tarea"))])
             ++ [SetTasks (tasks w)])
            ++ [Alert "Error" "No se pudo actualizar la tarea"]))
    end.
Proof.
  intros Htok. unfold handleToggle.
  destruct tok as [ | a tok]; [congruence | ].
  unfold abind, useTasks, setTasks, try_catch, abind.
  rewrite (updateTodo_run id _ (Legacy (negb currentStatus))
             [("completed", VBool (negb currentStatus))] _ eq_refl).
  cbv zeta.
  destruct (res <- network _ ;; handleResponse res) as [v | e]; reflexivity.
Qed.

(** C9: with a session token, [handleToggle] first sets the task list to
    the optimistic one, in which each task with the identifier [id] has
    [completed] set to the negation of [currentStatus] (the flag's
    negation, as the screen passes the task's own flag) and every other
    task and field is as before; only then does the request go out.  If
    the call succeeds the list stays so; if it fails (the fetch is
    rejected or [handleResponse] throws) the list is set back to the
    list of before the call. *)
Theorem handleToggle_optimistic_rollback
  (tok id : string) (currentStatus : bool) (w : World) :
  tok <> EmptyString ->
  exists (optimistic : list Task) (rest : list Event),
    let req := update_request id tok [("completed", VBool (negb currentStatus))] in
    let w' := snd (handleToggle (Some tok) id currentStatus w) in
    length optimistic = length (tasks w) /\
    (forall i t, nth_error (tasks w) i = Some t ->
       nth_error optimistic i =
         Some (if String.eqb (task_id t) id
               then mkTask (task_id t) (task_title t) (negb currentStatus)
                      (task_image t) (task_location t)
               else t)) /\
    trace w' = (trace w ++ SetTasks optimistic :: Fetch req :: rest)%list /\
    match (res <- network req ;; handleResponse res) with
    | Return _ => tasks w' = optimistic /\ rest = []
    | Throw e =>
        tasks w' = tasks w /\
        exists e', rest = [ConsoleError "Toggle error:" e';
                           SetTasks (tasks w);
                           Alert "Error" "No se pudo actualizar la tarea"]
    end.
Proof.
  intros Htok.
  exists (map (fun t => if String.eqb (task_id t) id
                        then with_completed t (negb currentStatus)
                        else t) (tasks w)).
  cbv zeta. rewrite (handleToggle_run tok id currentStatus w Htok).
  cbv zeta.
  destruct (res <- network _ ;; handleResponse res) as [v | e].
  - exists []. cbn [snd tasks trace after].
    repeat split.
    + apply length_map.
    + intros i t Hi. rewrite nth_error_map, Hi. reflexivity.
    + rewrite <- app_assoc. reflexivity.
  - eexists. cbn [snd tasks trace after].
    repeat split.
    + apply length_map.
    + intros i t Hi. rewrite nth_error_map, Hi. reflexivity.
    + rewrite <- !app_assoc. reflexivity.
    + eexists. reflexivity.
Qed.

End ApiProperties.

(* ================================================================= *)
(** * The properties on concrete responses and inputs *)

Section Concrete.

Import IntRuntime.

(** C1, a truthy [error] after an empty [message]: the error object's
    JSON text is thrown. *)
Lemma handleResponse_error_field_witness :
  handleResponse unauthorized_error_object =
    Throw (Error (js "{'code':7,'reason':'token expired'}")).
Proof.
  apply (handleResponse_error_field (RT := runtime) unauthorized_error_object
           [("message", VStr EmptyString);
            ("error", VObj [("code", VNum 7%Z); ("reason", VStr "token expired")])]).
  - reflexivity.
  - reflexivity.
Defined.

(** C1 as stated fails: the body [{"message":""}] parses as JSON and has
    a [message] field whose string value is empty, yet the thrown text is
    the raw body. *)
Lemma handleResponse_empty_message_counterexample :
  ok bad_request_empty_message = false /\
  JSON_parse (body bad_request_empty_message) =
    Some (VObj [("message", VStr EmptyString)]) /\
  handleResponse bad_request_empty_message =
    Throw (Error (js "{'message':''}")) /\
  handleResponse bad_request_empty_message <>
    Throw (Error (field_text (VStr EmptyString))).
Proof.
  repeat split; try reflexivity. vm_compute. discriminate.
Qed.

(** C2 on a 204 response. *)
Lemma no_content_resolves_witness :
  handleResponse no_content = Return VNull /\
  fst (createTodo (ENV := answering (Return no_content)) "token" buy_milk world0)
    = Return VNull /\
  fst (updateTodo (ENV := answering (Return no_content)) "7" "token"
         (Legacy true) world0)
    = Return VNull /\
  fst (deleteTodo (ENV := answering (Return no_content)) "7" "token" world0)
    = Return VUndefined.
Proof.
  destruct (no_content_resolves (RT := runtime) (ENV := answering (Return no_content))
              no_content eq_refl) as [Hh Hops].
  destruct (Hops (fun _ => eq_refl)) as (Hc & Hu & Hd).
  split; [exact Hh | ].
  split; [apply (Hc "token" buy_milk "  Buy milk  " world0 eq_refl);
          vm_compute; discriminate | ].
  split; [apply Hu | apply Hd].
Defined.

(** C2 as stated fails: [getTodos] receiving a 204 does not resolve to
    [null], it throws. *)
Lemma getTodos_no_content_counterexample :
  status no_content = 204%N /\
  fst (getTodos (ENV := answering (Return no_content)) "token" world0)
    = Throw (TypeError "Cannot read property 'data' of null") /\
  fst (getTodos (ENV := answering (Return no_content)) "token" world0)
    <> Return VNull.
Proof.
  repeat split; try reflexivity. vm_compute. discriminate.
Qed.

(** C3 on a title of two spaces, a tab and a no-break space. *)
Lemma createTodo_blank_title_witness :
  createTodo (ENV := answering (Return no_content)) "token"
    (mkNewTaskData (Some (bytes [32; 32; 9; 194; 160]%N)) None None) two_tasks
  = (Throw (Error "El título es obligatorio"), two_tasks).
Proof.
  apply (createTodo_blank_title (RT := runtime) (ENV := answering (Return no_content))).
  simpl.
  apply (blank_ws (bytes [32]%N)); [simpl; tauto | ].
  apply (blank_ws (bytes [32]%N)); [simpl; tauto | ].
  apply (blank_ws (bytes [9]%N)); [simpl; tauto | ].
  apply (blank_ws (bytes [194; 160]%N) EmptyString); [simpl; tauto | ].
  apply blank_empty.
Defined.

(** C4 and C5 on the specification's examples. *)
Example updateTodo_legacy_true_body :
  fetches (trace (snd (updateTodo (ENV := answering (Return no_content))
                         "7" "token" (Legacy true) world0)))
  = [mkRequest "https://todo.example/api/todos/7" (Some "PATCH")
       [("Authorization", "Bearer token"); ("Content-Type", "application/json")]
       (Some (js "{'completed':true}"))].
Proof. reflexivity. Qed.

Example updateTodo_only_title_body :
  updateTodo_payload (Partial (only_title "x")) = Return [("title", VStr "x")] /\
  fetches (trace (snd (updateTodo (ENV := answering (Return no_content))
                         "7" "token" (Partial (only_title "x")) world0)))
  = [mkRequest "https://todo.example/api/todos/7" (Some "PATCH")
       [("Authorization", "Bearer token"); ("Content-Type", "application/json")]
       (Some (js "{'title':'x'}"))].
Proof. split; reflexivity. Qed.

(** C6, the failing input: a 200 response whose body is [null]. *)
Lemma getTodos_null_witness :
  fst (getTodos (ENV := answering (Return ok_null)) "token" world0)
  = Throw (TypeError "Cannot read property 'data' of null").
Proof.
  apply (getTodos_null (RT := runtime) (ENV := answering (Return ok_null)) "token" world0 ok_null).
  - reflexivity.
  - reflexivity.
  - right. reflexivity.
Defined.

(** C7 on the specification's example. *)
Lemma createTodo_request_witness :
  createTodo_payload buy_milk = Return [("title", VStr "Buy milk")] /\
  trace (snd (createTodo (ENV := answering (Return no_content)) "token"
                buy_milk world0))
  = [Fetch (mkRequest "https://todo.example/api/todos" (Some "POST")
              [("Authorization", "Bearer token");
               ("Content-Type", "application/json");
               ("Accept", "application/json")]
              (Some (js "{'title':'Buy milk'}")))].
Proof.
  apply (createTodo_request (RT := runtime) (ENV := answering (Return no_content))
           "token" buy_milk "  Buy milk  " world0).
  - reflexivity.
  - vm_compute. discriminate.
Defined.

(** C8 on an empty body and on the body [{}]. *)
Lemma handleResponse_fallback_witness :
  handleResponse server_error_empty =
    Throw (Error "Error 500: Internal Server Error") /\
  handleResponse not_found_empty_object = Throw (Error "{}").
Proof.
  split.
  - apply (proj1 (handleResponse_fallback (RT := runtime) server_error_empty eq_refl)).
    reflexivity.
  - apply (proj2 (handleResponse_fallback (RT := runtime) not_found_empty_object eq_refl) []);
      reflexivity.
Defined.

(** C8 as stated fails: with an empty body the text starts with
    ["Error "], and with the body [{}], from which no message is
    extracted, the text is the body. *)
Lemma handleResponse_fallback_counterexample :
  (ok server_error_empty = false /\
   handleResponse server_error_empty <>
     Throw (Error (show_N (status server_error_empty) ++ ": "
                   ++ statusText server_error_empty))) /\
  (ok not_found_empty_object = false /\
   JSON_parse (body not_found_empty_object) = Some (VObj []) /\
   handleResponse not_found_empty_object <>
     Throw (Error (show_N (status not_found_empty_object) ++ ": "
                   ++ statusText not_found_empty_object))).
Proof.
  repeat split; try reflexivity; vm_compute; discriminate.
Qed.

(** C9 on two tasks, when the network is unreachable. *)
Lemma handleToggle_optimistic_rollback_witness :
  let env := answering (Throw (TypeError "Network request failed")) in
  let w' := snd (handleToggle (ENV := env) (Some "token") "1" false two_tasks) in
  tasks w' = tasks two_tasks /\
  exists req rest,
    trace w' =
      SetTasks [mkTask "1" "Buy milk" true None VUndefined;
                mkTask "2" "Walk the dog" true (Some "https://picsum.photos/200") VNull]
      :: Fetch req :: rest.
Proof.
  intros env w'.
  destruct (handleToggle_optimistic_rollback (RT := runtime) (ENV := env)
              "token" "1" false two_tasks)
    as (optimistic & rest & Hlen & Hnth & Htrace & Hcall).
  - discriminate.
  - cbv zeta in Htrace, Hcall. cbn in Hcall. destruct Hcall as [Htasks _].
    split; [exact Htasks | ].
    pose proof (Hnth 0%nat _ eq_refl) as H0.
    pose proof (Hnth 1%nat _ eq_refl) as H1.
    destruct optimistic as [ | t0 [ | t1 [ | t2 l]]]; try discriminate Hlen.
    cbn in H0, H1. injection H0 as ->. injection H1 as ->.
    eexists. exists rest. exact Htrace.
Defined.

(** C10 on a title with spaces around. *)
Lemma updateTodo_title_verbatim_witness :
  exists payload,
    updateTodo_payload (Partial (only_title "  x  ")) = Return payload /\
    lookup "title" payload = Some (VStr "  x  ") /\
    forall id token w,
      trace (snd (updateTodo (ENV := answering (Return no_content))
                    id token (Partial (only_title "  x  ")) w)) =
        (trace w ++ [Fetch (update_request (ENV := answering (Return no_content))
                              id token payload)])%list.
Proof.
  exact (proj1 (updateTodo_title_verbatim (RT := runtime)
                  (ENV := answering (Return no_content))
                  (only_title "  x  ") "  x  " eq_refl)).
Defined.

End Concrete.

(* ================================================================= *)
(** * Further properties of the service *)

Lemma fetches_app `{RT : Runtime} (a b : list Event) :
  fetches (a ++ b) = (fetches a ++ fetches b)%list.
Proof.
  induction a as [ | ev a IH]; [reflexivity | ].
  destruct ev; simpl; rewrite IH; reflexivity.
Qed.

Lemma strip_trailing_slash_app (s : string) :
  strip_trailing_slash (s ++ "/") = s.
Proof.
  induction s as [ | a s IH]; [reflexivity | ].
  simpl. destruct (s ++ "/") eqn:E.
  - destruct s; discriminate E.
  - rewrite IH. reflexivity.
Qed.

Lemma strip_trailing_slash_cons (a b : ascii) (s : string) :
  strip_trailing_slash (String a (String b s)) =
    String a (strip_trailing_slash (String b s)).
Proof. reflexivity. Qed.

Lemma strip_trailing_slash_cases (s : string) :
  strip_trailing_slash s = s \/ s = strip_trailing_slash s ++ "/".
Proof.
  induction s as [ | a s IH]; [left; reflexivity | ].
  destruct s as [ | b s'].
  - simpl. destruct (Ascii.eqb_spec a "/");
      [right; subst; reflexivity | left; reflexivity].
  - rewrite strip_trailing_slash_cons. destruct IH as [IH | IH].
    + left. rewrite IH. reflexivity.
    + right. cbn [append]. rewrite <- IH. reflexivity.
Qed.

Section FacadeProperties.

Context `{RT : Runtime} `{ENV : Environment}.

Lemma or_text_fallback (a b : string) :
  b <> EmptyString -> or_text a b <> EmptyString.
Proof. destruct a; simpl; [auto | discriminate]. Qed.

Lemma handleResponse_not_ok (res : Response) :
  ok res = false ->
  exists m, handleResponse res = Throw (Error m) /\ m <> EmptyString.
Proof.
  intros Hok. unfold handleResponse. rewrite Hok. simpl.
  eexists. split; [reflexivity | ].
  apply or_text_fallback. discriminate.
Qed.

(** X1: for a response that is not ok, [handleResponse] never returns
    and never throws anything but an [Error], whose message is never
    empty. *)
Theorem handleResponse_not_ok_throws (res : Response) :
  ok res = false ->
  exists m, handleResponse res = Throw (Error m) /\ m <> EmptyString.
Proof. exact (handleResponse_not_ok res). Qed.

(** X2: for a response that is not ok and whose non-empty body is not
    JSON, or is the JSON value [null], the thrown text is the generic
    ["Error del servidor (<status>)"] when the body contains
    ["<!DOCTYPE html>"], and the body itself otherwise. *)
Theorem handleResponse_unparseable_body (res : Response) :
  ok res = false ->
  body res <> EmptyString ->
  JSON_parse (body res) = None \/ JSON_parse (body res) = Some VNull ->
  handleResponse res =
    Throw (Error (if includes (body res) "<!DOCTYPE html>"
                  then "Error del servidor (" ++ show_N (status res) ++ ")"
                  else body res)).
Proof.
  intros Hok Hne Hp.
  unfold handleResponse, errorText_of, handleResponse_try, text.
  rewrite Hok. cbn [negb].
  destruct Hp as [Hp | Hp]; rewrite Hp; cbn [bind get];
    (destruct (includes (body res) "<!DOCTYPE html>");
     [reflexivity | rewrite or_text_nonempty by exact Hne; reflexivity]).
Qed.

(** X3: for a response that is not ok and whose body is JSON but neither
    an object nor [null] (an array, a string, a number, a boolean), no
    field is read from it and the body is thrown as it is. *)
Theorem handleResponse_non_object_json (res : Response) (v : jsval) :
  ok res = false ->
  JSON_parse (body res) = Some v ->
  match v with
  | VBool _ => True
  | VNum _ => True
  | VStr _ => True
  | VArr _ => True
  | _ => False
  end ->
  handleResponse res = Throw (Error (body res)).
Proof.
  intros Hok Hp Hv.
  unfold handleResponse, errorText_of, handleResponse_try, text.
  rewrite Hok, Hp. cbn [negb].
  destruct v; try contradiction; cbn;
    (rewrite or_text_nonempty by (eapply JSON_parse_nonempty; exact Hp));
    reflexivity.
Qed.

Ltac shape_done :=
  cbn [fst snd bind caught rethrown fallback trace tasks message];
  rewrite ?fetches_app; cbn [fetches]; rewrite ?app_nil_r;
  repeat split; reflexivity.

(** Every call that sends a request has the same shape: one fetch, then
    [handleResponse], then the operation's own reading of the parsed
    body, all inside the operation's [try]. *)
Lemma run_shape (op : Operation) (req : Request) :
  request_of op = Some req ->
  exists k : jsval -> completion jsval,
    forall w,
      fst (run op w) =
        caught op (res <- network req ;; json <- handleResponse res ;; k json) /\
      fetches (trace (snd (run op w))) = (fetches (trace w) ++ [req])%list /\
      tasks (snd (run op w)) = tasks w.
Proof.
  destruct op as [email password | email password | token | token data
                 | id token data | id token]; cbn [request_of run]; intros Hreq.
  - injection Hreq as <-.
    exists (fun json => data <- get json "data" ;;
                        if truthy data then Return data else Return json).
    intros w. unfold register, try_catch, abind, lift, fetch, throw, ret.
    fold (auth_request "/auth/register" email password).
    destruct (network (auth_request "/auth/register" email password))
      as [res | e]; [ | shape_done].
    cbn [bind]. destruct (handleResponse res) as [json | e]; [ | shape_done].
    cbn [bind]. destruct (get json "data") as [data | e]; [ | shape_done].
    cbn [bind]. destruct (truthy data); shape_done.
  - injection Hreq as <-.
    exists (fun json => data <- get json "data" ;;
                        tok <- (if truthy data then get data "token"
                                else Return data) ;;
                        if truthy tok then Return data else Return json).
    intros w. unfold login, try_catch, abind, lift, fetch, throw, ret.
    fold (auth_request "/auth/login" email password).
    destruct (network (auth_request "/auth/login" email password))
      as [res | e]; [ | shape_done].
    cbn [bind]. destruct (handleResponse res) as [json | e]; [ | shape_done].
    cbn [bind]. destruct (get json "data") as [data | e]; [ | shape_done].
    cbn [bind]. destruct (truthy data) eqn:Hd.
    + destruct (get data "token") as [tok | e]; [ | shape_done].
      cbn [bind]. destruct (truthy tok); shape_done.
    + cbn [bind]. rewrite Hd. shape_done.
  - injection Hreq as <-.
    exists (fun json => data <- get json "data" ;;
                        if truthy data && isArray data then Return data
                        else if isArray json then Return json
                        else Return (VArr [])).
    intros w. unfold getTodos, try_catch, abind, lift, fetch, throw, ret, emit.
    fold (list_request token).
    destruct (network (list_request token)) as [res | e]; [ | shape_done].
    cbn [bind]. destruct (handleResponse res) as [json | e]; [ | shape_done].
    cbn [bind]. destruct (get json "data") as [data | e]; [ | shape_done].
    cbn [bind]. destruct (truthy data && isArray data); [shape_done | ].
    destruct (isArray json); shape_done.
  - destruct (nt_title data) as [t | ] eqn:Et; [ | discriminate].
    destruct (createTodo_payload data) as [payload | e] eqn:Ep; [ | discriminate].
    destruct (String.eqb_spec (trim t) EmptyString) as [ | Hne]; [discriminate | ].
    injection Hreq as <-.
    exists (fun json => Return json). intros w.
    rewrite (createTodo_run token data t payload w Et Hne Ep).
    unfold after, rethrow.
    destruct (network (create_request token payload)) as [res | e];
      [ | shape_done].
    cbn [bind]. destruct (handleResponse res); shape_done.
  - destruct (updateTodo_payload data) as [payload | e] eqn:Ep; [ | discriminate].
    injection Hreq as <-.
    exists (fun json => Return json). intros w.
    rewrite (updateTodo_run id token data payload w Ep).
    unfold after, rethrow.
    destruct (network (update_request id token payload)) as [res | e];
      [ | shape_done].
    cbn [bind]. destruct (handleResponse res); shape_done.
  - injection Hreq as <-.
    exists (fun _ => Return VUndefined). intros w.
    rewrite (deleteTodo_run id token w).
    unfold after, rethrow.
    destruct (network (delete_request id token)) as [res | e];
      [ | shape_done].
    cbn [bind]. destruct (handleResponse res); shape_done.
Qed.

(** Without a request, a call is a [createTodo] whose title is missing
    or blank. *)
Lemma run_without_request (op : Operation) (w : World) :
  request_of op = None ->
  run op w = (Throw (Error "El título es obligatorio"), w).
Proof.
  destruct op as [email password | email password | token | token data
                 | id token data | id token]; cbn [request_of run];
    try discriminate.
  - unfold createTodo, createTodo_payload.
    destruct (nt_title data) as [t | ]; [ | reflexivity].
    cbn [bind]. destruct (String.eqb_spec (trim t) EmptyString) as [-> | Hne];
      [reflexivity | discriminate].
  - destruct (updateTodo_payload_total data) as [payload ->]. discriminate.
Qed.

(** X4: whatever the outcome, a call of the facade sends exactly one
    request and leaves the task list alone; the one call that sends
    none is a [createTodo] with a missing or blank title, which throws
    the validation error and changes nothing. *)
Theorem facade_single_request (op : Operation) (w : World) :
  match request_of op with
  | Some req =>
      fetches (trace (snd (run op w))) = (fetches (trace w) ++ [req])%list /\
      tasks (snd (run op w)) = tasks w
  | None => run op w = (Throw (Error "El título es obligatorio"), w)
  end.
Proof.
  destruct (request_of op) as [req | ] eqn:Hreq.
  - destruct (run_shape op req Hreq) as [k Hk].
    destruct (Hk w) as (_ & Hf & Ht). split; assumption.
  - apply run_without_request. exact Hreq.
Qed.

Lemma rethrown_error (op : Operation) (m : string) :
  m <> EmptyString -> rethrown op (Error m) = Error m.
Proof.
  intros Hm. unfold rethrown. destruct (fallback op); [ | reflexivity].
  cbn [message]. rewrite or_text_nonempty by exact Hm. reflexivity.
Qed.

(** X5: when the server answers a call with a status outside 200-299,
    the caller gets exactly the error [handleResponse] threw: the
    operation's [catch] keeps its message. *)
Theorem facade_http_error
  (op : Operation) (req : Request) (res : Response) (w : World) :
  request_of op = Some req ->
  network req = Return res ->
  ok res = false ->
  fst (run op w) = handleResponse res.
Proof.
  intros Hreq Hnet Hok.
  destruct (run_shape op req Hreq) as [k Hk].
  destruct (Hk w) as (-> & _ & _).
  rewrite Hnet. cbn [bind].
  destruct (handleResponse_not_ok res Hok) as (m & -> & Hm).
  cbn [bind caught]. rewrite (rethrown_error op m Hm). reflexivity.
Qed.

(** X6: when the fetch itself is rejected with [e], [getTodos] throws
    [e] as it is, and every other operation throws an [Error] with the
    message of [e], or with its own fallback text when that message is
    empty. *)
Theorem facade_transport_error
  (op : Operation) (req : Request) (e : JsError) (w : World) :
  request_of op = Some req ->
  network req = Throw e ->
  fst (run op w) =
    Throw (match fallback op with
           | Some text => Error (or_text (message e) text)
           | None => e
           end).
Proof.
  intros Hreq Hnet.
  destruct (run_shape op req Hreq) as [k Hk].
  destruct (Hk w) as (-> & _ & _).
  rewrite Hnet. reflexivity.
Qed.

(** X7: every operation but [getTodos] rejects only with an [Error]
    whose message is not empty, whatever went wrong (validation,
    transport, status, a body that is not JSON, a body of the wrong
    shape). *)
Theorem facade_rejections_are_errors
  (op : Operation) (w : World) (e : JsError) :
  fallback op <> None ->
  fst (run op w) = Throw e ->
  exists m, e = Error m /\ m <> EmptyString.
Proof.
  intros Hfb Hrun.
  destruct (request_of op) as [req | ] eqn:Hreq.
  - destruct (run_shape op req Hreq) as [k Hk].
    destruct (Hk w) as (Hfst & _ & _). rewrite Hfst in Hrun.
    destruct (res <- network req ;; json <- handleResponse res ;; k json)
      as [v | e0]; [discriminate | ].
    cbn [caught] in Hrun. injection Hrun as <-.
    unfold rethrown. destruct (fallback op) as [text | ] eqn:Ef;
      [ | contradiction].
    eexists. split; [reflexivity | ].
    apply or_text_fallback.
    destruct op; cbn in Ef; inversion Ef; discriminate.
  - rewrite (run_without_request op w Hreq) in Hrun.
    injection Hrun as <-. eexists. split; [reflexivity | discriminate].
Qed.

Lemma get_field (v : jsval) (k : string) :
  truthy v = true -> get v k = Return (field v k).
Proof. destruct v; simpl; intros H; try discriminate; reflexivity. Qed.

(** X8: on a 2xx response with content whose body is JSON and not
    [null], [getTodos] returns the array under [data] when the body is
    an object with such an array, the body itself when it is an array,
    and the empty list for every other value (an object without [data],
    with a [data] that is not an array, a string, a number, a
    boolean). *)
Theorem getTodos_decode
  (token : string) (w : World) (res : Response) (v : jsval) :
  network (list_request token) = Return res ->
  ok res = true ->
  status res <> 204%N ->
  JSON_parse (body res) = Some v ->
  v <> VNull ->
  v <> VUndefined ->
  fst (getTodos token w) =
    Return (match v with
            | VObj o => if isArray (prop o "data") then prop o "data" else VArr []
            | VArr _ => v
            | _ => VArr []
            end).
Proof.
  intros Hn Hok Hs Hp Hnull Hundef.
  rewrite getTodos_result, Hn. cbn [bind].
  rewrite (handleResponse_ok res v Hok Hs Hp). cbn [bind].
  destruct v as [ | | b | n | s | l | o]; try contradiction; try reflexivity.
  cbn [get bind isArray].
  destruct (prop o "data") as [ | | [ | ] | n | s | l | o'];
    cbn [truthy isArray andb]; try reflexivity.
  - destruct (Number_truthy n); reflexivity.
  - destruct (negb (String.eqb s EmptyString)); reflexivity.
Qed.

Lemma login_result (email password : string) (w : World) :
  fst (login email password w) =
    rethrow "Error al iniciar sesión"
      (res <- network (auth_request "/auth/login" email password) ;;
       json <- handleResponse res ;;
       data <- get json "data" ;;
       tok <- (if truthy data then get data "token" else Return data) ;;
       if truthy tok then Return data else Return json).
Proof.
  unfold login, try_catch, abind, lift, fetch, throw, ret.
  fold (auth_request "/auth/login" email password).
  destruct (network (auth_request "/auth/login" email password))
    as [res | e]; [ | reflexivity].
  cbn [bind]. destruct (handleResponse res) as [json | e]; [ | reflexivity].
  cbn [bind]. destruct (get json "data") as [data | e]; [ | reflexivity].
  cbn [bind]. destruct (truthy data) eqn:Hd.
  - destruct (get data "token") as [tok | e]; [ | reflexivity].
    cbn [bind]. destruct (truthy tok); reflexivity.
  - cbn [bind]. rewrite Hd. reflexivity.
Qed.

Lemma register_result (email password : string) (w : World) :
  fst (register email password w) =
    rethrow "Error al registrarse"
      (res <- network (auth_request "/auth/register" email password) ;;
       json <- handleResponse res ;;
       data <- get json "data" ;;
       if truthy data then Return data else Return json).
Proof.
  unfold register, try_catch, abind, lift, fetch, throw, ret.
  fold (auth_request "/auth/register" email password).
  destruct (network (auth_request "/auth/register" email password))
    as [res | e]; [ | reflexivity].
  cbn [bind]. destruct (handleResponse res) as [json | e]; [ | reflexivity].
  cbn [bind]. destruct (get json "data") as [data | e]; [ | reflexivity].
  cbn [bind]. destruct (truthy data); reflexivity.
Qed.

(** X9: [login] gives an object whose [token] is the session token for
    both shapes of the answer: the token under [data], and the token at
    the top level when [data] is absent, falsy or without a truthy
    token of its own. *)
Theorem login_token
  (email password : string) (w : World) (res : Response)
  (o : object number) (t : string) :
  network (auth_request "/auth/login" email password) = Return res ->
  ok res = true ->
  status res <> 204%N ->
  JSON_parse (body res) = Some (VObj o) ->
  t <> EmptyString ->
  field (prop o "data") "token" = VStr t \/
  (truthy (field (prop o "data") "token") = false /\ prop o "token" = VStr t) ->
  exists r,
    fst (login email password w) = Return r /\
    get r "token" = Return (VStr t).
Proof.
  intros Hn Hok Hs Hp Ht Hshape.
  rewrite login_result, Hn. cbn [bind].
  rewrite (handleResponse_ok res _ Hok Hs Hp). cbn [bind get].
  assert (Htruthy : truthy (VStr t) = true)
    by (destruct t; [congruence | reflexivity]).
  destruct Hshape as [Hd | [Hd Htop]].
  - destruct (prop o "data") as [ | | b | n | s | l | inner] eqn:Edata;
      try discriminate Hd.
    cbn [field] in Hd. cbn [truthy get bind]. rewrite Hd, Htruthy.
    eexists. split; [reflexivity | ]. cbn [get]. rewrite Hd. reflexivity.
  - destruct (truthy (prop o "data")) eqn:Etd.
    + rewrite (get_field _ "token" Etd). cbn [bind]. rewrite Hd.
      eexists. split; [reflexivity | ]. cbn [get]. rewrite Htop. reflexivity.
    + cbn [bind]. rewrite Etd.
      eexists. split; [reflexivity | ]. cbn [get]. rewrite Htop. reflexivity.
Qed.

(** X10: on a 2xx response with content whose body is a JSON value other
    than [null], [register] gives what is under [data] when that is
    truthy and the whole body otherwise (no [data], or a falsy one). *)
Theorem register_unwrap
  (email password : string) (w : World) (res : Response) (v : jsval) :
  network (auth_request "/auth/register" email password) = Return res ->
  ok res = true ->
  status res <> 204%N ->
  JSON_parse (body res) = Some v ->
  v <> VNull ->
  v <> VUndefined ->
  fst (register email password w) =
    Return (if truthy (field v "data") then field v "data" else v).
Proof.
  intros Hn Hok Hs Hp Hnull Hundef.
  rewrite register_result, Hn. cbn [bind].
  rewrite (handleResponse_ok res v Hok Hs Hp). cbn [bind].
  destruct v as [ | | b | n | s | l | o]; try contradiction; try reflexivity.
  cbn [get bind field]. destruct (truthy (prop o "data")); reflexivity.
Qed.

(** X11: on a 2xx response [deleteTodo] resolves, to no value, exactly
    when the status is 204 or the body is JSON (whose value it
    discards); a 2xx response with any other body, an empty one
    included, makes it reject. *)
Theorem deleteTodo_resolves
  (id token : string) (w : World) (res : Response) :
  network (delete_request id token) = Return res ->
  ok res = true ->
  fst (deleteTodo id token w) =
    match (status res =? 204)%N, JSON_parse (body res) with
    | false, None =>
        Throw (Error (or_text (parse_error (body res)) "Error al eliminar tarea"))
    | _, _ => Return VUndefined
    end.
Proof.
  intros Hn Hok. rewrite deleteTodo_run. cbn [fst]. rewrite Hn. cbn [bind].
  unfold handleResponse, json. rewrite Hok. cbn [negb].
  destruct (status res =? 204)%N; [reflexivity | ].
  destruct (JSON_parse (body res)); reflexivity.
Qed.

(** X12: [createTodo] and [updateTodo] give the parsed body of a 2xx
    response as it is; they do not look for a [data] envelope, unlike
    [getTodos], [login] and [register]. *)
Theorem create_update_return_body
  (op : Operation) (req : Request) (res : Response) (v : jsval) (w : World) :
  match op with
  | OpCreate _ _ => True
  | OpUpdate _ _ _ => True
  | _ => False
  end ->
  request_of op = Some req ->
  network req = Return res ->
  ok res = true ->
  status res <> 204%N ->
  JSON_parse (body res) = Some v ->
  fst (run op w) = Return v.
Proof.
  intros Hop Hreq Hn Hok Hs Hp.
  destruct op as [email password | email password | token | token data
                 | id token data | id token]; try contradiction;
    cbn [request_of run] in *.
  - destruct (nt_title data) as [t | ] eqn:Et; [ | discriminate].
    destruct (createTodo_payload data) as [payload | e] eqn:Ep; [ | discriminate].
    destruct (String.eqb_spec (trim t) EmptyString) as [ | Hne]; [discriminate | ].
    injection Hreq as <-.
    rewrite (createTodo_run token data t payload w Et Hne Ep).
    cbn [fst]. rewrite Hn. cbn [bind].
    rewrite (handleResponse_ok res v Hok Hs Hp). reflexivity.
  - destruct (updateTodo_payload data) as [payload | e] eqn:Ep; [ | discriminate].
    injection Hreq as <-.
    rewrite (updateTodo_run id token data payload w Ep).
    cbn [fst]. rewrite Hn. cbn [bind].
    rewrite (handleResponse_ok res v Hok Hs Hp). reflexivity.
Qed.

(** X14: the payload of [updateTodo] has a [location] exactly when the
    input's location is truthy, and then it holds the latitude and the
    longitude of the input and nothing else (a timestamp is dropped; a
    truthy location that is not an object gives two undefined fields);
    a [null] or otherwise falsy location is left out, so it cannot
    clear the stored one. *)
Theorem updateTodo_location_payload (d : Changes) :
  exists payload,
    updateTodo_payload (Partial d) = Return payload /\
    lookup "location" payload =
      if truthy (ch_location d)
      then Some (VObj [("latitude", field (ch_location d) "latitude");
                       ("longitude", field (ch_location d) "longitude")])
      else None.
Proof.
  unfold updateTodo_payload.
  destruct (truthy (ch_location d)) eqn:Hl.
  - rewrite !(get_field _ _ Hl). cbn [bind].
    destruct (ch_title d) as [t | ], (ch_completed d) as [c | ],
      (ch_image d) as [[s | ] | ]; eexists; split; reflexivity.
  - destruct (ch_title d) as [t | ], (ch_completed d) as [c | ],
      (ch_image d) as [[s | ] | ]; eexists; split; reflexivity.
Qed.

End FacadeProperties.

(** X13: the base URL is the configured one without its trailing slash:
    one slash at the end is removed and nothing else is changed, so a
    configuration with and without the final slash give the same
    request URLs; without a configuration the URLs start with
    ["undefined"]. *)
Theorem API_URL_trailing_slash
  (net : Request -> completion Response) (base token : string) :
  @API_URL {| network := net; EXPO_PUBLIC_API_URL := Some (base ++ "/") |}
    = Some base /\
  (@API_URL {| network := net; EXPO_PUBLIC_API_URL := Some base |} = Some base \/
   Some base =
     option_map (fun u => u ++ "/")
       (@API_URL {| network := net; EXPO_PUBLIC_API_URL := Some base |})) /\
  req_url (@list_request {| network := net; EXPO_PUBLIC_API_URL := Some (base ++ "/") |} token)
    = base ++ "/todos" /\
  req_url (@list_request {| network := net; EXPO_PUBLIC_API_URL := None |} token)
    = "undefined/todos".
Proof.
  unfold API_URL, list_request, API_URL. cbn.
  rewrite strip_trailing_slash_app.
  repeat split.
  destruct (strip_trailing_slash_cases base) as [H | H].
  - left. rewrite H. reflexivity.
  - right. rewrite <- H. reflexivity.
Qed.

(* ================================================================= *)
(** * Further properties of the list screen *)

Section ListScreenProperties.

Context `{RT : Runtime} `{ENV : Environment}.

Lemma unflagged_toggled (id : string) (c : bool) (l : list Task) :
  map unflagged
    (map (fun t => if String.eqb (task_id t) id then with_completed t c else t) l)
  = map unflagged l.
Proof.
  rewrite map_map. apply map_ext. intros t.
  destruct (String.eqb (task_id t) id); reflexivity.
Qed.

(** X15: [handleToggle] never rejects, and whatever the outcome of the
    call (and with or without a session token) the task list keeps its
    length and order and every field of every task except [completed]. *)
Theorem handleToggle_preserves
  (token : option string) (id : string) (currentStatus : bool) (w : World) :
  fst (handleToggle token id currentStatus w) = Return tt /\
  map unflagged (tasks (snd (handleToggle token id currentStatus w)))
    = map unflagged (tasks w).
Proof.
  destruct token as [tok | ]; [ | split; reflexivity].
  destruct (String.eqb_spec tok EmptyString) as [-> | Htok];
    [split; reflexivity | ].
  rewrite (handleToggle_run tok id currentStatus w Htok). cbv zeta.
  destruct (res <- network _ ;; handleResponse res) as [v | e];
    cbn [fst snd tasks after]; split; try reflexivity.
  apply unflagged_toggled.
Qed.

Lemma toggle_back (id : string) (c : bool) (l : list Task) :
  (forall t, In t l -> task_id t = id -> task_completed t = c) ->
  map (fun t => if String.eqb (task_id t) id then with_completed t c else t)
    (map (fun t => if String.eqb (task_id t) id
                   then with_completed t (negb c) else t) l)
  = l.
Proof.
  intros H. rewrite map_map. rewrite <- (map_id l) at 2.
  apply map_ext_in. intros t Ht.
  destruct (String.eqb_spec (task_id t) id) as [E | E].
  - cbn [with_completed task_id]. rewrite (proj2 (String.eqb_eq _ _) E).
    rewrite <- (H t Ht E). destruct t; reflexivity.
  - rewrite (proj2 (String.eqb_neq _ _) E). reflexivity.
Qed.

(** X16: toggling a task and toggling it back, both calls succeeding,
    gives the task list of before, when the flag passed the first time
    is the flag the tasks with that identifier have. *)
Theorem handleToggle_twice
  (tok id : string) (currentStatus : bool) (w : World) :
  tok <> EmptyString ->
  (forall t, In t (tasks w) -> task_id t = id ->
             task_completed t = currentStatus) ->
  (forall b, exists v,
      (res <- network (update_request id tok [("completed", VBool b)]) ;;
       handleResponse res) = Return v) ->
  tasks (snd (handleToggle (Some tok) id (negb currentStatus)
                (snd (handleToggle (Some tok) id currentStatus w))))
  = tasks w.
Proof.
  intros Htok Hflag Hnet.
  rewrite (handleToggle_run tok id (negb currentStatus) _ Htok). cbv zeta.
  destruct (Hnet (negb (negb currentStatus))) as [v2 ->].
  rewrite (handleToggle_run tok id currentStatus w Htok). cbv zeta.
  destruct (Hnet (negb currentStatus)) as [v1 ->].
  cbn [snd tasks after]. rewrite negb_involutive.
  apply toggle_back. exact Hflag.
Qed.



End ListScreenProperties.

(* ================================================================= *)
(** * Further properties of the form screens *)

Lemma blank_app (a b : string) : blank a -> blank b -> blank (a ++ b).
Proof.
  induction 1 as [ | w s Hw _ IH]; intros Hb; [exact Hb | ].
  assert (E : (w ++ s) ++ b = w ++ (s ++ b)).
  { clear. induction w as [ | c w IHw]; [reflexivity | ].
    simpl. rewrite IHw. reflexivity. }
  rewrite E. apply blank_ws; [exact Hw | apply IH; exact Hb].
Qed.

Lemma blank_iff_trimStart_empty (s : string) :
  blank s <-> trimStart s = EmptyString.
Proof.
  split; [apply blank_trimStart | ].
  apply (trimStart_empty_blank (String.length s)). lia.
Qed.

Lemma trimEnd_cons (a : ascii) (r : string) :
  trimStart (String a r) <> EmptyString ->
  trimEnd (String a r) = String a (trimEnd r).
Proof.
  intros H. cbn [trimEnd].
  destruct (trimStart (String a r)); [congruence | reflexivity].
Qed.

Lemma trimEnd_blank (s : string) :
  trimStart s = EmptyString -> trimEnd s = EmptyString.
Proof.
  intros H. destruct s as [ | a r]; [reflexivity | ].
  cbn [trimEnd]. rewrite H. reflexivity.
Qed.

(** What [trimEnd] removes is white space. *)
Lemma trimEnd_split (s : string) :
  exists suffix, s = trimEnd s ++ suffix /\ blank suffix.
Proof.
  induction s as [ | a r IH]; [exists EmptyString; split; constructor | ].
  destruct (trimStart (String a r)) eqn:E.
  - exists (String a r). rewrite (trimEnd_blank _ E). split; [reflexivity | ].
    apply blank_iff_trimStart_empty. exact E.
  - destruct IH as (suffix & Hs & Hb). exists suffix.
    rewrite trimEnd_cons by (rewrite E; discriminate).
    split; [ | exact Hb]. simpl. rewrite <- Hs. reflexivity.
Qed.

Lemma trimEnd_idempotent (s : string) : trimEnd (trimEnd s) = trimEnd s.
Proof.
  induction s as [ | a r IH]; [reflexivity | ].
  destruct (trimStart (String a r)) eqn:E.
  - rewrite (trimEnd_blank _ E). reflexivity.
  - rewrite trimEnd_cons by (rewrite E; discriminate).
    rewrite trimEnd_cons; [rewrite IH; reflexivity | ].
    intros Hb. apply blank_iff_trimStart_empty in Hb.
    destruct (trimEnd_split r) as (suffix & Hs & Hsuf).
    assert (Hall : blank (String a r)).
    { rewrite Hs. change (String a (trimEnd r ++ suffix))
        with (String a (trimEnd r) ++ suffix).
      apply blank_app; assumption. }
    apply blank_iff_trimStart_empty in Hall. rewrite E in Hall. discriminate.
Qed.

Lemma trimStart_length (n : nat) :
  forall s, String.length s <= n ->
            String.length (trimStart s) <= String.length s.
Proof.
  induction n as [ | n IH]; intros s Hlen.
  - destruct s; [simpl; lia | simpl in Hlen; lia].
  - destruct s as [ | a r]; [simpl; lia | ].
    simpl in Hlen. cbn [trimStart].
    destruct (ws1 (N_of_ascii a));
      [specialize (IH r); cbn [String.length]; lia | ].
    destruct r as [ | b r2]; [lia | ].
    simpl in Hlen.
    destruct (ws2 (N_of_ascii a) (N_of_ascii b));
      [specialize (IH r2); cbn [String.length]; lia | ].
    destruct r2 as [ | c r3]; [lia | ].
    simpl in Hlen.
    destruct (ws3 (N_of_ascii a) (N_of_ascii b) (N_of_ascii c));
      [specialize (IH r3); cbn [String.length]; lia | lia].
Qed.

(** A text that [trimStart] leaves alone stays so when its end is
    trimmed. *)
Lemma trimStart_trimEnd (s : string) :
  trimStart s = s -> trimStart (trimEnd s) = trimEnd s.
Proof.
  intros Hs. destruct s as [ | a r]; [reflexivity | ].
  assert (Hne : trimStart (String a r) <> EmptyString)
    by (rewrite Hs; discriminate).
  rewrite (trimEnd_cons a r Hne).
  pose proof (trimStart_length (String.length r) r (le_n _)) as Lr.
  cbn [trimStart] in Hs |- *.
  destruct (ws1 (N_of_ascii a)).
  { apply (f_equal String.length) in Hs. cbn [String.length] in Hs. lia. }
  destruct r as [ | b r2]; [reflexivity | ].
  destruct (trimStart (String b r2)) eqn:Eb.
  { rewrite (trimEnd_blank _ Eb). reflexivity. }
  rewrite (trimEnd_cons b r2) by (rewrite Eb; discriminate).
  pose proof (trimStart_length (String.length r2) r2 (le_n _)) as Lr2.
  destruct (ws2 (N_of_ascii a) (N_of_ascii b)).
  { apply (f_equal String.length) in Hs. cbn [String.length] in Hs. lia. }
  destruct r2 as [ | c r3]; [reflexivity | ].
  destruct (trimStart (String c r3)) eqn:Ec.
  { rewrite (trimEnd_blank _ Ec). reflexivity. }
  rewrite (trimEnd_cons c r3) by (rewrite Ec; discriminate).
  pose proof (trimStart_length (String.length r3) r3 (le_n _)) as Lr3.
  destruct (ws3 (N_of_ascii a) (N_of_ascii b) (N_of_ascii c)); [ | reflexivity].
  apply (f_equal String.length) in Hs. cbn [String.length] in Hs. lia.
Qed.

(** Trimming twice is trimming once: the title the create screen trims
    is not changed by the service's own trim. *)
Lemma trim_idempotent (s : string) : trim (trim s) = trim s.
Proof.
  unfold trim.
  rewrite (trimStart_trimEnd (trimStart s) (trimStart_idempotent s)).
  apply trimEnd_idempotent.
Qed.

Section FormScreenProperties.

Context `{RT : Runtime} `{ENV : Environment} `{DEV : Device}.

Lemma skipn_app_exact {A : Type} (l l' : list A) :
  skipn (length l) (l ++ l') = l'.
Proof. induction l as [ | x l IH]; [reflexivity | exact IH]. Qed.

Lemma call_after {A : Type} (c : async A) (u : Ui) (r : completion A)
  (req : Request) :
  c (ui_world u) = (r, after (ui_world u) req) ->
  call c u =
    (r, mkUi (after (ui_world u) req) (ui_trace u ++ [Service (Fetch req)])).
Proof.
  intros H. unfold call. rewrite H. unfold after. cbn [trace].
  rewrite skipn_app_exact. reflexivity.
Qed.

Lemma or_text_empty (a : string) : or_text a EmptyString = a.
Proof. destruct a; reflexivity. Qed.

Lemma trim_nonempty_truthy (t : string) :
  trim t <> EmptyString -> negb (truthy (@VStr number (trim t))) = false.
Proof. intros H. cbn [truthy]. destruct (trim t); [congruence | reflexivity]. Qed.

Lemma save_payload_built (title : string) (photoUri : option string)
  (locationData : option Location) :
  createTodo_payload
    (mkNewTaskData (Some (trim title))
       match photoUri with
       | Some EmptyString => None
       | Some _ => Some placeholder
       | None => None
       end
       (option_map location_copy locationData))
  = Return (save_payload title photoUri locationData).
Proof.
  unfold createTodo_payload, save_payload, location_entry, placeholder.
  cbn [nt_title nt_location nt_photoUri bind]. rewrite trim_idempotent.
  destruct locationData as [l | ]; destruct photoUri as [[ | a uri] | ];
    reflexivity.
Qed.

(** What a run of [handleSaveTask] with a token and a title does. *)
Lemma handleSaveTask_run (tok title : string) (photoUri : option string)
  (locationData : option Location) (u : Ui) :
  tok <> EmptyString ->
  trim title <> EmptyString ->
  handleSaveTask (Some tok) title photoUri locationData u =
    let req := create_request tok (save_payload title photoUri locationData) in
    (Return tt,
     mkUi (after (ui_world u) req)
       ((((ui_trace u ++ [SetIsLoading true]) ++ [Service (Fetch req)])
         ++ match (res <- network req ;; handleResponse res) with
            | Return _ =>
                [Service (Alert "Éxito" "Tarea creada");
                 if canGoBack then RouterBack
                 else RouterReplace "/home/todo-list"]
            | Throw e =>
                [ConsoleLog (Error (or_text (message e) "Error al crear tarea"));
                 Service (save_failure_alert
                            (or_text (message e) "Error al crear tarea"))]
            end)
        ++ [SetIsLoading false])).
Proof.
  intros Htok Hne. unfold handleSaveTask.
  destruct tok as [ | a tok]; [congruence | ].
  rewrite (trim_nonempty_truthy title Hne). cbv zeta.
  unfold sbind at 1. unfold say at 1. cbn iota beta.
  unfold finally, scatch. unfold sbind at 1.
  assert (Hvalid : trim (trim title) <> EmptyString)
    by (rewrite trim_idempotent; exact Hne).
  pose proof (createTodo_run (String a tok)
                (mkNewTaskData (Some (trim title))
                   match photoUri with
                   | Some EmptyString => None
                   | Some _ => Some placeholder
                   | None => None
                   end
                   (option_map location_copy locationData))
                (trim title) (save_payload title photoUri locationData)
                (ui_world u) eq_refl Hvalid
                (save_payload_built title photoUri locationData)) as Hrun.
  rewrite (call_after _ (mkUi (ui_world u) (ui_trace u ++ [SetIsLoading true]))
             _ _ Hrun).
  cbn [ui_world ui_trace].
  destruct (res <- network _ ;; handleResponse res) as [v | e];
    cbn [rethrow].
  - unfold sbind, alert, say. cbn [ui_world ui_trace].
    destruct canGoBack; cbn [ui_world ui_trace];
      rewrite <- !app_assoc; reflexivity.
  - unfold sbind, alert, say, save_failure_alert. cbn [ui_world ui_trace message].
    rewrite or_text_empty.
    assert (Hm : or_text (message e) "Error al crear tarea" <> EmptyString)
      by (apply or_text_fallback; discriminate).
    rewrite (or_text_nonempty _ "Inténtalo de nuevo" Hm).
    destruct (includes _ "401" || includes _ "unauthorized");
      cbn [ui_world ui_trace]; rewrite <- !app_assoc; reflexivity.
Qed.

(** X18: with a token and a title that is not blank, [handleSaveTask]
    sends one POST whose payload holds the title trimmed (the screen's
    trim and the service's make one), the latitude and longitude of the
    captured location when there is one, and, when a photo was taken,
    the placeholder URL in place of the photo's local URI, which never
    leaves the device; the request follows [setIsLoading(true)]. *)
Theorem handleSaveTask_request (tok title : string) (photoUri : option string)
  (locationData : option Location) (u : Ui) :
  tok <> EmptyString ->
  trim title <> EmptyString ->
  let req := create_request tok (save_payload title photoUri locationData) in
  let u' := snd (handleSaveTask (Some tok) title photoUri locationData u) in
  fetches (trace (ui_world u')) = (fetches (trace (ui_world u)) ++ [req])%list /\
  exists rest,
    ui_trace u' =
      (ui_trace u ++ SetIsLoading true :: Service (Fetch req) :: rest)%list /\
    fetches (service_events rest) = [].
Proof.
  intros Htok Hne. cbv zeta.
  rewrite (handleSaveTask_run tok title photoUri locationData u Htok Hne).
  cbv zeta. cbn [snd ui_world ui_trace after trace].
  split; [apply fetches_app | ].
  eexists. split; [rewrite <- !app_assoc; reflexivity | ].
  destruct (res <- network _ ;; handleResponse res) as [v | e].
  - destruct canGoBack; reflexivity.
  - unfold save_failure_alert.
    destruct (includes _ "401" || includes _ "unauthorized"); reflexivity.
Qed.


Lemma edit_payload_built (title : string) (completed : bool)
  (photoUri : option string) (locationData : option Location) :
  updateTodo_payload
    (Partial
       (mkChanges (Some completed) (Some (trim title))
          (Some match photoUri with
                | Some uri =>
                    if negb (String.eqb uri EmptyString) && prefix "file:" uri
                    then Some placeholder
                    else Some uri
                | None => None
                end)
          (location_value locationData)))
  = Return (edit_payload title completed photoUri locationData).
Proof.
  unfold updateTodo_payload, edit_payload, location_entry, location_value.
  cbn [ch_title ch_completed ch_image ch_location].
  destruct photoUri as [uri | ];
    [destruct (String.eqb_spec uri EmptyString) as [-> | Hu];
     [ | destruct (prefix "file:" uri)] | ];
    destruct locationData as [l | ]; reflexivity.
Qed.

(** What a run of [handleUpdate] with a token and a title does. *)
Lemma handleUpdate_run (tok id title : string) (completed : bool)
  (photoUri : option string) (locationData : option Location) (u : Ui) :
  tok <> EmptyString ->
  trim title <> EmptyString ->
  handleUpdate (Some tok) id title completed photoUri locationData u =
    let req := update_request id tok
                 (edit_payload title completed photoUri locationData) in
    (Return tt,
     mkUi (after (ui_world u) req)
       ((((ui_trace u ++ [SetIsSaving true]) ++ [Service (Fetch req)])
         ++ match (res <- network req ;; handleResponse res) with
            | Return _ =>
                [Service (Alert "Éxito" "Tarea actualizada correctamente");
                 RouterBack]
            | Throw e =>
                [ConsoleErrorValue
                   (Error (or_text (message e) "Error al actualizar tarea"));
                 Service (Alert "Error"
                            (or_text (message e) "Error al actualizar tarea"))]
            end)
        ++ [SetIsSaving false])).
Proof.
  intros Htok Hne. unfold handleUpdate.
  destruct tok as [ | a tok]; [congruence | ].
  rewrite (trim_nonempty_truthy title Hne). cbv zeta.
  unfold sbind at 1. unfold say at 1. cbn iota beta.
  unfold finally, scatch. unfold sbind at 1.
  pose proof (updateTodo_run id (String a tok) _ _ (ui_world u)
                (edit_payload_built title completed photoUri locationData))
    as Hrun.
  rewrite (call_after _ (mkUi (ui_world u) (ui_trace u ++ [SetIsSaving true]))
             _ _ Hrun).
  cbn [ui_world ui_trace].
  destruct (res <- network _ ;; handleResponse res) as [v | e];
    cbn [rethrow].
  - unfold sbind, alert, say. cbn [ui_world ui_trace].
    rewrite <- !app_assoc; reflexivity.
  - unfold sbind, alert, say. cbn [ui_world ui_trace message].
    assert (Hm : or_text (message e) "Error al actualizar tarea" <> EmptyString)
      by (apply or_text_fallback; discriminate).
    rewrite (or_text_nonempty _ "No se pudo actualizar" Hm).
    rewrite <- !app_assoc; reflexivity.
Qed.

(** X20: with a token and a title that is not blank, [handleUpdate]
    sends one PATCH to the task's URL whose payload always holds the
    trimmed title, the [completed] flag and an [image]: [null] when the
    form has no photo (so saving a task without photo asks to clear
    it), the placeholder URL when the photo is a local [file:] URI, the
    photo's URL as it is otherwise; and the latitude and longitude of
    the location when there is one (its timestamp is dropped). *)
Theorem handleUpdate_request (tok id title : string) (completed : bool)
  (photoUri : option string) (locationData : option Location) (u : Ui) :
  tok <> EmptyString ->
  trim title <> EmptyString ->
  let req := update_request id tok
               (edit_payload title completed photoUri locationData) in
  let u' := snd (handleUpdate (Some tok) id title completed photoUri
                   locationData u) in
  fetches (trace (ui_world u')) = (fetches (trace (ui_world u)) ++ [req])%list /\
  exists rest,
    ui_trace u' =
      (ui_trace u ++ SetIsSaving true :: Service (Fetch req) :: rest)%list /\
    fetches (service_events rest) = [].
Proof.
  intros Htok Hne. cbv zeta.
  rewrite (handleUpdate_run tok id title completed photoUri locationData u
             Htok Hne).
  cbv zeta. cbn [snd ui_world ui_trace after trace].
  split; [apply fetches_app | ].
  eexists. split; [rewrite <- !app_assoc; reflexivity | ].
  destruct (res <- network _ ;; handleResponse res) as [v | e]; reflexivity.
Qed.



End FormScreenProperties.

(* ================================================================= *)
(** * The further properties on concrete responses and inputs *)

Section MoreConcrete.

Import IntRuntime.

(** X1 on an HTML error page. *)
Lemma handleResponse_not_ok_throws_witness :
  exists m, handleResponse bad_gateway_html = Throw (Error m) /\ m <> EmptyString.
Proof.
  exact (handleResponse_not_ok_throws (RT := runtime) bad_gateway_html eq_refl).
Defined.

(** X2 on an HTML error page. *)
Lemma handleResponse_unparseable_body_witness :
  handleResponse bad_gateway_html = Throw (Error "Error del servidor (502)").
Proof.
  rewrite (handleResponse_unparseable_body (RT := runtime) bad_gateway_html).
  - reflexivity.
  - reflexivity.
  - discriminate.
  - left. reflexivity.
Defined.

(** X3 on a body that is a JSON string. *)
Lemma handleResponse_non_object_json_witness :
  handleResponse conflict_json_text = Throw (Error (js "'Title already used'")).
Proof.
  apply (handleResponse_non_object_json (RT := runtime) conflict_json_text
           (VStr "Title already used")).
  - reflexivity.
  - reflexivity.
  - exact I.
Defined.

(** X5 on a delete answered with status 500. *)
Lemma facade_http_error_witness :
  fst (run (ENV := answering (Return server_error_empty))
         (OpDelete "7" "token") world0)
  = Throw (Error "Error 500: Internal Server Error").
Proof.
  rewrite (facade_http_error (RT := runtime)
             (ENV := answering (Return server_error_empty))
             (OpDelete "7" "token") _ server_error_empty world0
             eq_refl eq_refl eq_refl).
  reflexivity.
Defined.

(** X6 on a create when the network is unreachable. *)
Lemma facade_transport_error_witness :
  fst (run (ENV := answering (Throw (TypeError "Network request failed")))
         (OpCreate "token" buy_milk) world0)
  = Throw (Error "Network request failed").
Proof.
  rewrite (facade_transport_error (RT := runtime)
             (ENV := answering (Throw (TypeError "Network request failed")))
             (OpCreate "token" buy_milk) _ (TypeError "Network request failed")
             world0 eq_refl eq_refl).
  reflexivity.
Defined.

(** X7 on an update when the network is unreachable. *)
Lemma facade_rejections_are_errors_witness :
  exists m, Error "Network request failed" = Error m /\ m <> EmptyString.
Proof.
  apply (facade_rejections_are_errors (RT := runtime)
           (ENV := answering (Throw (TypeError "Network request failed")))
           (OpUpdate "7" "token" (Legacy true)) world0).
  - discriminate.
  - reflexivity.
Defined.

(** X8 on an enveloped list. *)
Lemma getTodos_decode_witness :
  fst (getTodos (ENV := answering (Return ok_enveloped_list)) "token" world0)
  = Return (VArr [VObj [("id", VStr "1"); ("title", VStr "Buy milk");
                        ("completed", VBool false)]]).
Proof.
  rewrite (getTodos_decode (RT := runtime)
             (ENV := answering (Return ok_enveloped_list)) "token" world0
             ok_enveloped_list
             (VObj [("success", VBool true);
                    ("data", VArr [VObj [("id", VStr "1");
                                         ("title", VStr "Buy milk");
                                         ("completed", VBool false)]])])).
  - reflexivity.
  - reflexivity.
  - reflexivity.
  - discriminate.
  - reflexivity.
  - discriminate.
  - discriminate.
Defined.

(** X9 on a token under [data]. *)
Lemma login_token_witness :
  exists r,
    fst (login (ENV := answering (Return ok_login_enveloped))
           "ana@example.com" "secret" world0) = Return r /\
    get r "token" = Return (VStr "abc").
Proof.
  apply (login_token (RT := runtime)
           (ENV := answering (Return ok_login_enveloped))
           "ana@example.com" "secret" world0 ok_login_enveloped
           [("success", VBool true); ("data", VObj [("token", VStr "abc")])]
           "abc").
  - reflexivity.
  - reflexivity.
  - discriminate.
  - reflexivity.
  - discriminate.
  - left. reflexivity.
Defined.

(** X10 on an enveloped user. *)
Lemma register_unwrap_witness :
  fst (register (ENV := answering (Return ok_registered))
         "ana@example.com" "secret" world0)
  = Return (VObj [("id", VStr "u1"); ("email", VStr "ana@example.com")]).
Proof.
  rewrite (register_unwrap (RT := runtime)
             (ENV := answering (Return ok_registered))
             "ana@example.com" "secret" world0 ok_registered
             (VObj [("success", VBool true);
                    ("data", VObj [("id", VStr "u1");
                                   ("email", VStr "ana@example.com")])])).
  - reflexivity.
  - reflexivity.
  - reflexivity.
  - discriminate.
  - reflexivity.
  - discriminate.
  - discriminate.
Defined.

(** X11 on a 200 response with an empty body. *)
Lemma deleteTodo_resolves_witness :
  fst (deleteTodo (ENV := answering (Return ok_empty)) "7" "token" world0)
  = Throw (Error "JSON Parse error").
Proof.
  rewrite (deleteTodo_resolves (RT := runtime)
             (ENV := answering (Return ok_empty)) "7" "token" world0 ok_empty
             eq_refl eq_refl).
  reflexivity.
Defined.

(** X12 on a created task inside an envelope. *)
Lemma create_update_return_body_witness :
  fst (run (ENV := answering (Return ok_created_enveloped))
         (OpCreate "token" buy_milk) world0)
  = Return (VObj [("data", VObj [("id", VStr "9"); ("title", VStr "Buy milk")])]).
Proof.
  apply (create_update_return_body (RT := runtime)
           (ENV := answering (Return ok_created_enveloped))
           (OpCreate "token" buy_milk)
           (create_request (ENV := answering (Return ok_created_enveloped))
              "token" [("title", VStr "Buy milk")])
           ok_created_enveloped).
  - exact I.
  - reflexivity.
  - reflexivity.
  - reflexivity.
  - discriminate.
  - reflexivity.
Defined.

(** X16 on the first of two tasks. *)
Lemma handleToggle_twice_witness :
  tasks (snd (handleToggle (ENV := answering (Return no_content))
                (Some "token") "1" true
                (snd (handleToggle (ENV := answering (Return no_content))
                        (Some "token") "1" false two_tasks))))
  = tasks two_tasks.
Proof.
  apply (handleToggle_twice (RT := runtime)
           (ENV := answering (Return no_content)) "token" "1" false two_tasks).
  - discriminate.
  - simpl. intros t [<- | [<- | []]]; simpl; intros H;
      [reflexivity | discriminate H].
  - intros b. exists VNull. reflexivity.
Defined.


(** X18 on a task with a photo and a location. *)
Lemma handleSaveTask_request_witness :
  fetches (trace (ui_world
     (snd (handleSaveTask (ENV := answering (Return no_content)) (DEV := phone)
             (Some "token") "  Buy milk  "
             (Some "file:///data/cache/photo.jpg") (Some santiago) screen0))))
  = [mkRequest "https://todo.example/api/todos" (Some "POST")
       [("Authorization", "Bearer token");
        ("Content-Type", "application/json");
        ("Accept", "application/json")]
       (Some (js "{'title':'Buy milk','location':{'latitude':-33,'longitude':-70},'image':'https://picsum.photos/200?random=1700000000000'}"))].
Proof.
  destruct (handleSaveTask_request (RT := runtime)
              (ENV := answering (Return no_content)) (DEV := phone)
              "token" "  Buy milk  " (Some "file:///data/cache/photo.jpg")
              (Some santiago) screen0) as [H _].
  - discriminate.
  - vm_compute. discriminate.
  - rewrite H. reflexivity.
Defined.


(** X20 on a task without photo. *)
Lemma handleUpdate_request_witness :
  fetches (trace (ui_world
     (snd (handleUpdate (ENV := answering (Return no_content)) (DEV := phone)
             (Some "token") "7" " Buy milk " true None (Some santiago)
             screen0))))
  = [mkRequest "https://todo.example/api/todos/7" (Some "PATCH")
       [("Authorization", "Bearer token"); ("Content-Type", "application/json")]
       (Some (js "{'title':'Buy milk','completed':true,'image':null,'location':{'latitude':-33,'longitude':-70}}"))].
Proof.
  destruct (handleUpdate_request (RT := runtime)
              (ENV := answering (Return no_content)) (DEV := phone)
              "token" "7" " Buy milk " true None (Some santiago) screen0)
    as [H _].
  - discriminate.
  - vm_compute. discriminate.
  - rewrite H. reflexivity.
Defined.



End MoreConcrete.
